(** * server.py: a forking HTTP server over raw sockets

    A shallow embedding of [src/server.py] and the properties of its three
    functions, [reap_children], [handle_request] and [serve_forever].

    The program talks to the operating system and loops forever, so each
    function is an interaction tree over the system calls it issues.  A Python
    call either returns, raises, or (for [os._exit]) ends the process; the
    trees therefore return a completion ([outcome]).  A run of a tree against
    an operating system (a handler answering every call, with a state of its
    own) yields the trace of calls with their answers.

    Every call may be answered with an [OSError].  The trees describe one
    process: after [fork] the child is the process whose call returned 0 and
    the parent the one whose call returned the child's pid, each running on
    under its own answers.  The handler installed for [SIGCHLD] runs when the
    kernel delivers the signal; [reap_children] is studied as one such
    invocation. *)

From Stdlib Require Import ZArith List Strings.String Strings.Ascii Strings.Byte Bool Lia.
From Stdlib Require Import DecimalString.
From ITree Require Import ITree Eq.Shallow.
Import ListNotations.
Local Open Scope Z_scope.

Set Implicit Arguments.

(** ** Python values the program handles *)

(** [bytes] objects. *)
Definition bytes : Type := list byte.

(** A bytes literal written as text, one byte per character. *)
Definition b (s : string) : bytes := list_byte_of_string s.

(** Truth value of a bytes object: empty is false. *)
Definition truth (x : bytes) : bool :=
  match x with
  | [] => false
  | _ :: _ => true
  end.

(** A [str] handed to [print]: a literal, or the result of
    [bytes.decode(errors="ignore")], whose codec belongs to the runtime and is
    kept symbolic. *)
Variant str : Type :=
| Text (s : string)
| decode_ignore (x : bytes).

(** Socket objects, identified by their file descriptor. *)
Definition sock : Type := Z.

(** An [AF_INET] address: host and port. *)
Definition address : Type := (string * Z)%type.

(** The exception of a failed call.  The system calls of the program raise
    [OSError], and the program looks at nothing but its [errno], in its
    [except OSError] clauses around [accept] and [waitpid].  A failing [print]
    is raised through the same record: its class, which may be another one,
    is not modelled, and no [except] clause of the program can see it. *)
Record OSError : Type := mkOSError { errno : Z }.

(** What a system call gives back to Python. *)
Variant result (A : Type) : Type :=
| Ok (a : A)
| Err (e : OSError).
Arguments Ok {A} a.
Arguments Err {A} e.

(** Functions of the program that are passed around as values. *)
Variant callback : Type :=
| fn_reap_children.

(** ** System calls *)

Variant sysE : Type -> Type :=
| Socket (family type : Z) : sysE (result sock)
| Setsockopt (s : sock) (level optname value : Z) : sysE (result unit)
| Bind (s : sock) (addr : address) : sysE (result unit)
| Listen (s : sock) (backlog : Z) : sysE (result unit)
| Accept (s : sock) : sysE (result (sock * address))
| Recv (s : sock) (bufsize : Z) : sysE (result bytes)
| Sendall (s : sock) (data : bytes) : sysE (result unit)
| Close (s : sock) : sysE (result unit)
| Print (text : str) : sysE (result unit)
| Signal (signum : Z) (handler : callback) : sysE (result unit)
| Waitpid (pid options : Z) : sysE (result (Z * Z))
| Fork : sysE (result Z).

(** ** Completions and the monad of Python code *)

(** How a piece of Python code ends: it falls off its end with a value, raises,
    leaves the process through [os._exit], or hits [continue] or [break]. *)
Variant outcome (A : Type) : Type :=
| Returned (a : A)
| Raised (e : OSError)
| Exited (code : Z)
| Continued
| Broke.
Arguments Returned {A} a.
Arguments Raised {A} e.
Arguments Exited {A} code.
Arguments Continued {A}.
Arguments Broke {A}.

Definition py (A : Type) : Type := itree sysE (outcome A).

Definition ret {A} (a : A) : py A := Ret (Returned a).
Definition raise {A} (e : OSError) : py A := Ret (Raised e).
Definition continue {A} : py A := Ret Continued.
Definition break {A} : py A := Ret Broke.

(** Sequencing: whatever is not a normal return skips the rest. *)
Definition bind {A B} (m : py A) (k : A -> py B) : py B :=
  ITree.bind m (fun o =>
    match o with
    | Returned a => k a
    | Raised e => Ret (Raised e)
    | Exited c => Ret (Exited c)
    | Continued => Ret Continued
    | Broke => Ret Broke
    end).

(** [try: m except OSError as e: h e] *)
Definition try_except {A} (m : py A) (h : OSError -> py A) : py A :=
  ITree.bind m (fun o =>
    match o with
    | Raised e => h e
    | _ => Ret o
    end).

(** [while True: body] *)
Definition while_True (body : py unit) : py unit :=
  ITree.iter (fun _ : unit =>
    ITree.bind body (fun o =>
      match o with
      | Returned _ | Continued => Ret (inl tt)
      | Broke => Ret (inr (Returned tt))
      | Raised e => Ret (inr (Raised e))
      | Exited c => Ret (inr (Exited c))
      end)) tt.

(** A system call as Python sees it: an error answer is raised. *)
Definition syscall {A} (e : sysE (result A)) : py A :=
  ITree.bind (ITree.trigger e) (fun r =>
    match r with
    | Ok a => ret a
    | Err x => raise x
    end).

Declare Scope py_scope.
Delimit Scope py_scope with py.
Notation "x <- m ;; k" := (bind m (fun x => k))
  (at level 61, m at next level, right associativity) : py_scope.
Notation "' p <- m ;; k" := (bind m (fun x => match x with p => k end))
  (at level 61, p pattern, m at next level, right associativity) : py_scope.
Notation "m ;; k" := (bind m (fun _ => k))
  (at level 61, right associativity) : py_scope.

(** ** The library modules the program imports *)

Module errno.
Definition EINTR : Z := 4.
Definition ECHILD : Z := 10.
Definition EADDRINUSE : Z := 98.
Definition ECONNRESET : Z := 104.
Definition EMFILE : Z := 24.
End errno.

Module os.
Definition WNOHANG : Z := 1.
Definition waitpid (pid options : Z) : py (Z * Z) := syscall (Waitpid pid options).
Definition fork : py Z := syscall Fork.
Definition _exit {A} (code : Z) : py A := Ret (Exited code).
End os.

Module signal.
Definition SIGCHLD : Z := 17.
Definition signal (signum : Z) (handler : callback) : py unit :=
  syscall (Signal signum handler).
End signal.

Module socket.
Definition AF_INET : Z := 2.
Definition SOCK_STREAM : Z := 1.
Definition SOL_SOCKET : Z := 1.
Definition SO_REUSEADDR : Z := 2.
Definition socket (family type : Z) : py sock := syscall (Socket family type).
Definition setsockopt (s : sock) (level optname value : Z) : py unit :=
  syscall (Setsockopt s level optname value).
Definition bind (s : sock) (addr : address) : py unit := syscall (Bind s addr).
Definition listen (s : sock) (backlog : Z) : py unit := syscall (Listen s backlog).
Definition accept (s : sock) : py (sock * address) := syscall (Accept s).
Definition recv (s : sock) (bufsize : Z) : py bytes := syscall (Recv s bufsize).
Definition sendall (s : sock) (data : bytes) : py unit := syscall (Sendall s data).
Definition close (s : sock) : py unit := syscall (Close s).
End socket.

Definition print (text : str) : py unit := syscall (Print text).

(** Decimal text of an integer, as an f-string interpolates it. *)
Definition format_int (n : Z) : string := NilZero.string_of_int (Z.to_int n).

(** ** The program *)

Local Open Scope py_scope.

Definition HOST : string := "".
Definition PORT : Z := 8888.
Definition REQUEST_QUEUE_SIZE : Z := 1024.
Definition BUFFER_SIZE : Z := 1024.

(** The signal handler's second argument, which it never looks at. *)
Definition frame : Type := unit.

Definition reap_children (signum : Z) (fr : frame) : py unit :=
  while_True
    (try_except
       ('(pid, _) <- os.waitpid (-1) os.WNOHANG ;;
        if pid =? 0 then break else ret tt)
       (fun _ => break)).

(** The bytes literal of [handle_request]; the backslash after the opening
    quotes drops the first line break, every other one is in the literal. *)
Definition response : bytes := b
"HTTP/1.1 200 OK
Content-Type: text/plain

Hello, World!
".
Arguments response : simpl never.

Definition handle_request (conn : sock) : py unit :=
  request <- socket.recv conn BUFFER_SIZE ;;
  if negb (truth request) then ret tt
  else
    print (decode_ignore request) ;;
    socket.sendall conn response.

Definition serve_iteration (listen_socket : sock) : py unit :=
  '(client_conn, client_addr) <-
     try_except (socket.accept listen_socket)
       (fun e => if errno e =? errno.EINTR then continue else raise e) ;;
  pid <- os.fork ;;
  if pid =? 0 then
    socket.close listen_socket ;;
    handle_request client_conn ;;
    socket.close client_conn ;;
    os._exit 0
  else
    socket.close client_conn.

Definition serve_forever : py unit :=
  listen_socket <- socket.socket socket.AF_INET socket.SOCK_STREAM ;;
  socket.setsockopt listen_socket socket.SOL_SOCKET socket.SO_REUSEADDR 1 ;;
  socket.bind listen_socket (HOST, PORT) ;;
  socket.listen listen_socket REQUEST_QUEUE_SIZE ;;
  print (Text ("Serving HTTP on port " ++ format_int PORT ++ " ...")) ;;
  signal.signal signal.SIGCHLD fn_reap_children ;;
  while_True (serve_iteration listen_socket).

(** The function behind each callback value. *)
Definition callback_body (f : callback) : Z -> frame -> py unit :=
  match f with
  | fn_reap_children => reap_children
  end.

(** [if __name__ == "__main__": serve_forever()] *)
Definition main : py unit := serve_forever.

(** Exit status of a process whose main program ended with [o]: an uncaught
    exception gives status 1. *)
Definition exit_status {A} (o : outcome A) : Z :=
  match o with
  | Exited code => code
  | Raised _ => 1
  | _ => 0
  end.

Local Close Scope py_scope.

(** ** Running a program against an operating system *)

(** One entry of a trace: a system call and the answer it got. *)
Inductive entry : Type :=
| Call : forall X : Type, sysE X -> X -> entry.

(** The data a trace entry writes to connection [c]: the argument of a
    [sendall] on [c], nothing for any other call. *)
Definition written (c : sock) (en : entry) : list bytes :=
  match en with
  | Call (Sendall s data) _ => if s =? c then [data] else []
  | Call _ _ => []
  end.

(** Every [sendall] of a trace, in order: the socket and the data. *)
Definition sent (tr : list entry) : list (sock * bytes) :=
  flat_map (fun en =>
    match en with
    | Call (Sendall s data) _ => [(s, data)]
    | Call _ _ => []
    end) tr.

(** The writes of a trace that went through: every [sendall] that returned,
    with its socket and data. *)
Definition delivered (tr : list entry) : list (sock * bytes) :=
  flat_map (fun en =>
    match en with
    | Call (Sendall s data) (Ok _) => [(s, data)]
    | Call _ _ => []
    end) tr.

(** Every write a trace makes to connection [c], in order. *)
Definition writes (c : sock) (tr : list entry) : list bytes :=
  flat_map (written c) tr.

(** The system call of an entry failed. *)
Definition failed (en : entry) : bool :=
  match en with
  | @Call X e x =>
      match e in sysE X return X -> bool with
      | Socket _ _ | Setsockopt _ _ _ _ | Bind _ _ | Listen _ _ | Accept _
      | Recv _ _ | Sendall _ _ | Close _ | Print _ | Signal _ _
      | Waitpid _ _ | Fork =>
          fun r => match r with Ok _ => false | Err _ => true end
      end x
  end.

(** The entry reads from or writes to a connection. *)
Definition is_io (en : entry) : bool :=
  match en with
  | Call (Recv _ _) _ | Call (Sendall _ _) _ => true
  | Call _ _ => false
  end.

(** The entry is an [accept]. *)
Definition is_accept (en : entry) : bool :=
  match en with
  | Call (Accept _) _ => true
  | Call _ _ => false
  end.

Unset Implicit Arguments.

Section Run.

(** The operating system: a state [W] and an answer to every call. *)
Context {W : Type} (sys : forall X, sysE X -> W -> X * W).

(** [exec fuel t w] runs [t] from the state [w] for at most [fuel] nodes of
    the tree.  It gives the trace, the state reached, and, when [t] has
    ended, its result with the fuel left over. *)
Fixpoint exec {R} (fuel : nat) (t : itree sysE R) (w : W)
  : list entry * W * option (R * nat) :=
  match fuel with
  | O => ([], w, None)
  | S n =>
      match observe t with
      | RetF r => ([], w, Some (r, n))
      | TauF t' => exec n t' w
      | VisF e k =>
          let (x, w1) := sys _ e w in
          let '(tr, w2, o) := exec n (k x) w1 in
          (Call e x :: tr, w2, o)
      end
  end.

(** The same run without the fuel count: [None] as result means that the
    program was still running when the fuel ran out. *)
Definition run {R} (fuel : nat) (t : itree sysE R) (w : W)
  : list entry * W * option R :=
  let '(tr, w', o) := exec fuel t w in (tr, w', option_map fst o).

(** The calls of a run, and its result. *)
Definition trace_of {R} (fuel : nat) (t : itree sysE R) (w : W) : list entry :=
  fst (fst (run fuel t w)).

Definition result_of {R} (fuel : nat) (t : itree sysE R) (w : W) : option R :=
  snd (run fuel t w).

(** Putting a trace in front of a run. *)
Definition after {R} (tr : list entry) (r : list entry * W * option R)
  : list entry * W * option R :=
  let '(tr2, w2, o) := r in (tr ++ tr2, w2, o).

End Run.

(** ** A scripted operating system, to run the program on concrete inputs *)

(** An answer of the script; [A_err n] fails the call with errno [n]. *)
Variant answer : Type :=
| A_ok
| A_sock (s : sock)
| A_conn (c : sock) (peer : address)
| A_bytes (data : bytes)
| A_pid (pid : Z)
| A_wait (pid status : Z)
| A_err (n : Z).

(** The error of a call on something that is not an open descriptor. *)
Definition EBADF : OSError := mkOSError 9.

(** Reading an answer at the type the call expects; an answer of another
    shape fails the call with [EBADF]. *)
Definition as_unit (a : answer) : result unit :=
  match a with A_ok => Ok tt | A_err n => Err (mkOSError n) | _ => Err EBADF end.
Definition as_sock (a : answer) : result sock :=
  match a with A_sock s => Ok s | A_err n => Err (mkOSError n) | _ => Err EBADF end.
Definition as_conn (a : answer) : result (sock * address) :=
  match a with A_conn c p => Ok (c, p) | A_err n => Err (mkOSError n) | _ => Err EBADF end.
Definition as_bytes (a : answer) : result bytes :=
  match a with A_bytes d => Ok d | A_err n => Err (mkOSError n) | _ => Err EBADF end.
Definition as_pid (a : answer) : result Z :=
  match a with A_pid p => Ok p | A_err n => Err (mkOSError n) | _ => Err EBADF end.
Definition as_wait (a : answer) : result (Z * Z) :=
  match a with A_wait p st => Ok (p, st) | A_err n => Err (mkOSError n) | _ => Err EBADF end.

(** The answer read at the type of the call. *)
Definition read_answer {X} (e : sysE X) : answer -> X :=
  match e in sysE X return answer -> X with
  | Socket _ _ => as_sock
  | Accept _ => as_conn
  | Recv _ _ => as_bytes
  | Fork => as_pid
  | Waitpid _ _ => as_wait
  | Setsockopt _ _ _ _ | Bind _ _ | Listen _ _ | Sendall _ _ | Close _
  | Print _ | Signal _ _ => as_unit
  end.

(** The scripted system answers the calls from a list, one answer per call;
    when the list is used up every call fails with [EBADF]. *)
Definition scripted : forall X, sysE X -> list answer -> X * list answer :=
  fun X e script =>
    match script with
    | [] => (read_answer e (A_err 9), [])
    | a :: rest => (read_answer e a, rest)
    end.

(** ** Where a run of [main] stands *)

Section Reaching.

Context {W : Type} (sys : forall X, sysE X -> W -> X * W).

(** The system lets the start-up through: from [w0] the six calls succeed,
    the socket is [listen_socket] and the state afterwards is [w]. *)
Definition started (w0 : W) (listen_socket : sock) (w : W) : Prop :=
  exists w1 w2 w3 w4 w5,
    sys _ (Socket socket.AF_INET socket.SOCK_STREAM) w0 = (Ok listen_socket, w1)
    /\ sys _ (Setsockopt listen_socket socket.SOL_SOCKET socket.SO_REUSEADDR 1) w1
       = (Ok tt, w2)
    /\ sys _ (Bind listen_socket (HOST, PORT)) w2 = (Ok tt, w3)
    /\ sys _ (Listen listen_socket REQUEST_QUEUE_SIZE) w3 = (Ok tt, w4)
    /\ sys _ (Print (Text "Serving HTTP on port 8888 ...")) w4 = (Ok tt, w5)
    /\ sys _ (Signal signal.SIGCHLD fn_reap_children) w5 = (Ok tt, w).

(** [main] has reached the top of its accept loop: after [n] steps from
    [w0] it has made the calls [tr], the system is in state [w], and what is
    left of [main] is the loop on [listen_socket]. *)
Definition at_accept_loop (w0 : W) (listen_socket : sock)
    (n : nat) (tr : list entry) (w : W) : Prop :=
  forall fuel,
    exec sys (n + fuel) main w0 =
    after tr (exec sys fuel (while_True (serve_iteration listen_socket)) w).

End Reaching.

(** ** Reference behaviours the theorems compare the program with *)

(** The line break of the literal. *)
Definition LF : bytes := [x0a].

(** How the worker ends once the [close] of the connection has answered [r]:
    through [os._exit(0)], or with the exception of that [close]. *)
Definition closing (r : result unit) : outcome unit :=
  match r with
  | Ok _ => Exited 0
  | Err e => Raised e
  end.

(** What the worker does after [fork], by the answers it gets: the calls of
    the process in which [fork] returned 0, and how that process ends. *)
Inductive worker_run (listen_socket conn : sock) : list entry -> outcome unit -> Prop :=
| worker_close_listen_fails e :
    worker_run listen_socket conn
      [Call (Close listen_socket) (Err e)] (Raised e)
| worker_recv_fails e :
    worker_run listen_socket conn
      [Call (Close listen_socket) (Ok tt);
       Call (Recv conn BUFFER_SIZE) (Err e)] (Raised e)
| worker_empty_read r :
    worker_run listen_socket conn
      [Call (Close listen_socket) (Ok tt);
       Call (Recv conn BUFFER_SIZE) (Ok []);
       Call (Close conn) r] (closing r)
| worker_print_fails request e :
    request <> [] ->
    worker_run listen_socket conn
      [Call (Close listen_socket) (Ok tt);
       Call (Recv conn BUFFER_SIZE) (Ok request);
       Call (Print (decode_ignore request)) (Err e)] (Raised e)
| worker_sendall_fails request e :
    request <> [] ->
    worker_run listen_socket conn
      [Call (Close listen_socket) (Ok tt);
       Call (Recv conn BUFFER_SIZE) (Ok request);
       Call (Print (decode_ignore request)) (Ok tt);
       Call (Sendall conn response) (Err e)] (Raised e)
| worker_served request r :
    request <> [] ->
    worker_run listen_socket conn
      [Call (Close listen_socket) (Ok tt);
       Call (Recv conn BUFFER_SIZE) (Ok request);
       Call (Print (decode_ignore request)) (Ok tt);
       Call (Sendall conn response) (Ok tt);
       Call (Close conn) r] (closing r).

(** The trace of a start-up in which every call succeeds. *)
Definition startup_trace (listen_socket : sock) : list entry :=
  [Call (Socket socket.AF_INET socket.SOCK_STREAM) (Ok listen_socket);
   Call (Setsockopt listen_socket socket.SOL_SOCKET socket.SO_REUSEADDR 1) (Ok tt);
   Call (Bind listen_socket (HOST, PORT)) (Ok tt);
   Call (Listen listen_socket REQUEST_QUEUE_SIZE) (Ok tt);
   Call (Print (Text "Serving HTTP on port 8888 ...")) (Ok tt);
   Call (Signal signal.SIGCHLD fn_reap_children) (Ok tt)].

(** What the Listener may do in its loop: accept on the listening socket,
    fork, and close a socket other than the listening one. *)
Definition listener_call (listen_socket : sock) (en : entry) : Prop :=
  match en with
  | Call (Accept s) _ => s = listen_socket
  | Call Fork _ => True
  | Call (Close c) _ => c <> listen_socket
  | Call _ _ => False
  end.

(** The worker's calls when none of them fails, as the specification lists
    them: close the listening socket, read, write if the read was not empty,
    close the connection. *)
Definition worker_trace (listen_socket conn : sock) (request : bytes) : list entry :=
  [Call (Close listen_socket) (Ok tt);
   Call (Recv conn BUFFER_SIZE) (Ok request)]
  ++ (if truth request
      then [Call (Print (decode_ignore request)) (Ok tt);
            Call (Sendall conn response) (Ok tt)]
      else [])
  ++ [Call (Close conn) (Ok tt)].

(** No call of the trace failed. *)
Definition all_succeeded (tr : list entry) : bool :=
  forallb (fun en => negb (failed en)) tr.

(** A system that never runs dry, for a Listener that serves on and on: every
    call succeeds, [accept] hands out the next descriptor after the listening
    socket's, [fork] returns a positive pid. *)
Definition steady : forall X, sysE X -> Z -> X * Z :=
  fun X e n =>
    match e in sysE X return X * Z with
    | Socket _ _ => (Ok 3, n + 1)
    | Accept s => (Ok (s + 1, ("127.0.0.1"%string, n)), n + 1)
    | Recv _ _ => (Ok [], n + 1)
    | Fork => (Ok (Z.abs n + 1), n + 1)
    | Waitpid _ _ => (Ok (0, 0), n + 1)
    | Setsockopt _ _ _ _ | Bind _ _ | Listen _ _ | Sendall _ _ | Close _
    | Print _ | Signal _ _ => (Ok tt, n + 1)
    end.

(** The answer to a check that ends the loop: pid 0, or an [OSError]. *)
Definition ends_reaping (r : result (Z * Z)) : bool :=
  match r with
  | Ok (pid, _) => pid =? 0
  | Err _ => true
  end.

(** The entry is the non-blocking check [waitpid(-1, WNOHANG)]. *)
Definition is_nohang_check (en : entry) : bool :=
  match en with
  | Call (Waitpid pid options) _ => (pid =? -1) && (options =? os.WNOHANG)
  | Call _ _ => false
  end.

(** The kernel's table of the children of the process.  A child terminates
    when its [exits_in] reaches 0; from then on it is a zombie until it is
    waited for. *)
Record child : Type := mkChild {
  child_pid : positive;
  exits_in : nat;
  exit_code : Z
}.

(** The child has terminated and has not been waited for. *)
Definition terminated (c : child) : bool := Nat.eqb (exits_in c) 0.

(** Time passing for one child between two system calls. *)
Definition tick (c : child) : child :=
  mkChild (child_pid c) (Nat.pred (exits_in c)) (exit_code c).

(** Taking the first terminated child out of the table. *)
Fixpoint collect (table : list child) : option (child * list child) :=
  match table with
  | [] => None
  | c :: rest =>
      if terminated c then Some (c, rest)
      else match collect rest with
           | Some (z, rest') => Some (z, c :: rest')
           | None => None
           end
  end.

(** [waitpid(-1, WNOHANG)] as POSIX defines it: [ECHILD] without children, the
    pid and wait status of a terminated child if there is one, which is
    thereby reaped, and pid 0 when all children are still running.  The wait
    status of a child that exited carries its exit code in the second byte. *)
Definition wait_nohang (table : list child) : result (Z * Z) * list child :=
  match table with
  | [] => (Err (mkOSError errno.ECHILD), [])
  | _ :: _ =>
      match collect table with
      | Some (z, rest) => (Ok (Z.pos (child_pid z), Z.shiftl (exit_code z) 8), rest)
      | None => (Ok (0, 0), table)
      end
  end.

(** A kernel that only knows its children: time passes at every call, the
    non-blocking wait is answered from the table, and any other call fails
    with [EBADF]. *)
Definition kernel : forall X, sysE X -> list child -> X * list child :=
  fun X e table =>
    let now := map tick table in
    match e in sysE X return X * list child with
    | Waitpid pid options =>
        if (pid =? -1) && (options =? os.WNOHANG) then wait_nohang now
        else (Err EBADF, now)
    | Socket _ _ => (Err EBADF, now)
    | Accept _ => (Err EBADF, now)
    | Recv _ _ => (Err EBADF, now)
    | Fork => (Err EBADF, now)
    | Setsockopt _ _ _ _ | Bind _ _ | Listen _ _ | Sendall _ _ | Close _
    | Print _ | Signal _ _ => (Err EBADF, now)
    end.

(** No child of the table has terminated. *)
Definition all_running (table : list child) : bool :=
  forallb (fun c => negb (terminated c)) table.

Section Checks.

Context {W : Type} (sys : forall X, sysE X -> W -> X * W).

(** At most [k] checks, one after the other, up to the first whose answer
    ends the reaping; the flag tells whether that answer came. *)
Fixpoint checks (k : nat) (w : W) : list entry * W * bool :=
  match k with
  | O => ([], w, false)
  | S k' =>
      let (r, w1) := sys _ (Waitpid (-1) os.WNOHANG) w in
      if ends_reaping r then ([Call (Waitpid (-1) os.WNOHANG) r], w1, true)
      else
        let '(tr, w2, done) := checks k' w1 in
        (Call (Waitpid (-1) os.WNOHANG) r :: tr, w2, done)
  end.

End Checks.

(** ** Further reference behaviours *)

(** The entry is a [fork]. *)
Definition is_fork (en : entry) : bool :=
  match en with
  | Call Fork _ => true
  | Call _ _ => false
  end.

(** The calls [handle_request] may make on the connection [conn]: the read of
    at most [BUFFER_SIZE] bytes, the log line, the write of the response. *)
Definition handler_call (conn : sock) (en : entry) : Prop :=
  match en with
  | Call (Recv s n) _ => s = conn /\ n = BUFFER_SIZE
  | Call (Print _) _ => True
  | Call (Sendall s data) _ => s = conn /\ data = response
  | Call _ _ => False
  end.

(** The number of reads in a trace. *)
Definition reads (tr : list entry) : nat :=
  List.length (filter (fun en => match en with
                                 | Call (Recv _ _) _ => true
                                 | Call _ _ => false
                                 end) tr).

(** One turn of the accept loop from beginning to end, by the answers the
    system gives: its calls and how it ends. *)
Inductive iteration_run (listen_socket : sock) : list entry -> outcome unit -> Prop :=
| iteration_interrupted e :
    errno e = errno.EINTR ->
    iteration_run listen_socket [Call (Accept listen_socket) (Err e)] Continued
| iteration_accept_fails e :
    errno e <> errno.EINTR ->
    iteration_run listen_socket [Call (Accept listen_socket) (Err e)] (Raised e)
| iteration_fork_fails conn addr e :
    iteration_run listen_socket
      [Call (Accept listen_socket) (Ok (conn, addr)); Call Fork (Err e)] (Raised e)
| iteration_parent conn addr pid r :
    pid <> 0 ->
    iteration_run listen_socket
      [Call (Accept listen_socket) (Ok (conn, addr)); Call Fork (Ok pid);
       Call (Close conn) r]
      (match r with Ok _ => Returned tt | Err e => Raised e end)
| iteration_child conn addr tr o :
    worker_run listen_socket conn tr o ->
    iteration_run listen_socket
      (Call (Accept listen_socket) (Ok (conn, addr)) :: Call Fork (Ok 0) :: tr) o.

(** Whether an accepted connection is waiting for its [fork]. *)
Variant phase : Type :=
| Idle
| Accepted.

(** One call seen by an observer who pairs connections with forks: a
    successful [accept] is allowed only when no connection is waiting, a [fork]
    only when one is, and it takes that connection; other calls change
    nothing.  [None] means that the call breaks the pairing. *)
Definition pair_step (p : phase) (en : entry) : option phase :=
  match en with
  | @Call X e x =>
      match e in sysE X return X -> option phase with
      | Accept _ => fun r =>
          match p, r with
          | Idle, Ok _ => Some Accepted
          | Idle, Err _ => Some Idle
          | Accepted, _ => None
          end
      | Fork => fun _ =>
          match p with
          | Accepted => Some Idle
          | Idle => None
          end
      | Socket _ _ | Setsockopt _ _ _ _ | Bind _ _ | Listen _ _
      | Recv _ _ | Sendall _ _ | Close _ | Print _ | Signal _ _
      | Waitpid _ _ => fun _ => Some p
      end x
  end.

Fixpoint pairing (p : phase) (tr : list entry) : option phase :=
  match tr with
  | [] => Some p
  | en :: rest =>
      match pair_step p en with
      | Some q => pairing q rest
      | None => None
      end
  end.

(** The number of connections a trace accepts, and the number of its forks. *)
Definition accepted (tr : list entry) : nat :=
  List.length (filter (fun en => is_accept en && negb (failed en)) tr).

Definition forks (tr : list entry) : nat :=
  List.length (filter is_fork tr).

Section Listening.

Context {W : Type} (sys : forall X, sysE X -> W -> X * W).

(** A stretch of the Listener's life, read off the system's answers alone:
    from the state [w], turns in which [accept] is interrupted and turns in
    which a connection is accepted, forked for and closed, with the calls of
    these turns, the steps they take and the state they lead to. *)
Inductive listens (listen_socket : sock) : W -> list entry -> nat -> W -> Prop :=
| listens_done w :
    listens listen_socket w [] 0 w
| listens_interrupted w e w1 tr k w' :
    sys _ (Accept listen_socket) w = (Err e, w1) ->
    errno e = errno.EINTR ->
    listens listen_socket w1 tr k w' ->
    listens listen_socket w
      (Call (Accept listen_socket) (Err e) :: tr) (2 + k) w'
| listens_served w conn addr w1 pid w2 w3 tr k w' :
    sys _ (Accept listen_socket) w = (Ok (conn, addr), w1) ->
    sys _ Fork w1 = (Ok pid, w2) ->
    pid <> 0 ->
    sys _ (Close conn) w2 = (Ok tt, w3) ->
    listens listen_socket w3 tr k w' ->
    listens listen_socket w
      (Call (Accept listen_socket) (Ok (conn, addr)) :: Call Fork (Ok pid)
         :: Call (Close conn) (Ok tt) :: tr)
      (4 + k) w'.

End Listening.

(** ** How runs compose *)

Section RunFacts.

Context {W : Type} (sys : forall X, sysE X -> W -> X * W).

Lemma after_nil {R} (r : list entry * W * option R) : after [] r = r.
Proof. destruct r as [[tr w] o]. reflexivity. Qed.

Lemma after_app {R} tr1 tr2 (r : list entry * W * option R) :
  after (tr1 ++ tr2) r = after tr1 (after tr2 r).
Proof. destruct r as [[tr w] o]. unfold after. now rewrite app_assoc. Qed.

(** A run only looks at the tree through [observe]. *)
Lemma exec_observe {R} (t u : itree sysE R) fuel w :
  observe t = observe u -> exec sys fuel t w = exec sys fuel u w.
Proof. intros H. destruct fuel as [|n]; cbn [exec]; [|rewrite H]; reflexivity. Qed.

Lemma exec_S {R} (t : itree sysE R) n w :
  exec sys (S n) t w =
  match observe t with
  | RetF r => ([], w, Some (r, n))
  | TauF t' => exec sys n t' w
  | VisF e k =>
      let (x, w1) := sys _ e w in
      let '(tr, w2, o) := exec sys n (k x) w1 in
      (Call e x :: tr, w2, o)
  end.
Proof. reflexivity. Qed.

Lemma exec_Ret {R} (r : R) fuel w :
  exec sys (S fuel) (Ret r) w = ([], w, Some (r, fuel)).
Proof. reflexivity. Qed.

(** A run of [ITree.bind t k] is a run of [t] followed, when [t] ends with
    fuel to spare, by a run of [k] on its result. *)
Lemma exec_bind {A B} (t : itree sysE A) (k : A -> itree sysE B) fuel w :
  exec sys fuel (ITree.bind t k) w =
  match exec sys fuel t w with
  | (tr, w1, None) => (tr, w1, None)
  | (tr, w1, Some (a, rest)) => after tr (exec sys (S rest) (k a) w1)
  end.
Proof.
  revert t w. induction fuel as [|n IH]; intros t w; [reflexivity|].
  rewrite (exec_S (ITree.bind t k)), (exec_S t), observe_bind.
  destruct (observe t) as [r|t'|X e h]; cbn [observe _observe].
  - rewrite after_nil. symmetry. apply exec_S.
  - apply IH.
  - destruct (sys _ e w) as [x w1]. rewrite IH.
    destruct (exec sys n (h x) w1) as [[tr w2] [[a rest]|]]; [|reflexivity].
    destruct (exec sys (S rest) (k a) w2) as [[tr2 w3] o]. reflexivity.
Qed.

(** One turn of [while True]. *)
Lemma exec_while_True (body : py unit) fuel w :
  exec sys fuel (while_True body) w =
  match exec sys fuel body w with
  | (tr, w1, None) => (tr, w1, None)
  | (tr, w1, Some (o, rest)) =>
      match o with
      | Returned _ | Continued => after tr (exec sys rest (while_True body) w1)
      | Broke => (tr, w1, Some (Returned tt, rest))
      | Raised e => (tr, w1, Some (Raised e, rest))
      | Exited c => (tr, w1, Some (Exited c, rest))
      end
  end.
Proof.
  unfold while_True at 1.
  rewrite (exec_observe _ _ _ _ (observing_observe (unfold_aloop_ _ tt))).
  rewrite !exec_bind.
  destruct (exec sys fuel body w) as [[tr w1] [[o rest]|]]; [|reflexivity].
  destruct o as [[]|e|c| |]; cbn [exec observe _observe after];
    rewrite ?app_nil_r; try reflexivity.
Qed.

(** Sequencing two pieces of Python code. *)
Lemma exec_py_bind {A B} (m : py A) (k : A -> py B) fuel w :
  exec sys fuel (bind m k) w =
  match exec sys fuel m w with
  | (tr, w1, None) => (tr, w1, None)
  | (tr, w1, Some (o, rest)) =>
      match o with
      | Returned a => after tr (exec sys (S rest) (k a) w1)
      | Raised e => (tr, w1, Some (Raised e, rest))
      | Exited c => (tr, w1, Some (Exited c, rest))
      | Continued => (tr, w1, Some (Continued, rest))
      | Broke => (tr, w1, Some (Broke, rest))
      end
  end.
Proof.
  unfold bind. rewrite exec_bind.
  destruct (exec sys fuel m w) as [[tr w1] [[o rest]|]]; [|reflexivity].
  destruct o; try reflexivity;
    rewrite exec_Ret; cbn [after]; now rewrite app_nil_r.
Qed.

(** A [try] statement: only a raised exception reaches the handler. *)
Lemma exec_try_except {A} (m : py A) (h : OSError -> py A) fuel w :
  exec sys fuel (try_except m h) w =
  match exec sys fuel m w with
  | (tr, w1, None) => (tr, w1, None)
  | (tr, w1, Some (o, rest)) =>
      match o with
      | Raised e => after tr (exec sys (S rest) (h e) w1)
      | _ => (tr, w1, Some (o, rest))
      end
  end.
Proof.
  unfold try_except. rewrite exec_bind.
  destruct (exec sys fuel m w) as [[tr w1] [[o rest]|]]; [|reflexivity].
  destruct o; try reflexivity;
    rewrite exec_Ret; cbn [after]; now rewrite app_nil_r.
Qed.

(** A system call is one entry of the trace. *)
Lemma exec_syscall {A} (e : sysE (result A)) fuel w :
  exec sys (S (S fuel)) (syscall e) w =
  ([Call e (fst (sys _ e w))], snd (sys _ e w),
   Some (match fst (sys _ e w) with
         | Ok a => Returned a
         | Err x => Raised x
         end, fuel)).
Proof.
  cbn. destruct (sys _ e w) as [[a|x] w1]; reflexivity.
Qed.

Lemma exec_syscall_1 {A} (e : sysE (result A)) w :
  exec sys 1 (syscall e) w = ([Call e (fst (sys _ e w))], snd (sys _ e w), None).
Proof.
  cbn. destruct (sys _ e w) as [x w1]. reflexivity.
Qed.

(** More fuel does not change a run that has ended. *)
Lemma exec_more_fuel {R} (t : itree sysE R) n k w tr w1 r rest :
  exec sys n t w = (tr, w1, Some (r, rest)) ->
  exec sys (n + k) t w = (tr, w1, Some (r, (rest + k)%nat)).
Proof.
  revert t w tr. induction n as [|n IH]; intros t w tr; [discriminate|].
  cbn [exec Nat.add]. destruct (observe t) as [r0|t'|X e h].
  - intros H. injection H as <- <- <- <-. reflexivity.
  - apply IH.
  - destruct (sys _ e w) as [x w'].
    destruct (exec sys n (h x) w') as [[tr' w2] o] eqn:E.
    intros H. injection H as <- <- ->.
    now rewrite (IH _ _ _ E).
Qed.

Lemma run_more_fuel {R} (t : itree sysE R) n m w tr w1 r :
  run sys n t w = (tr, w1, Some r) -> (n <= m)%nat ->
  run sys m t w = (tr, w1, Some r).
Proof.
  unfold run. intros H Hle.
  destruct (exec sys n t w) as [[tr' w'] [[r' rest]|]] eqn:E; [|discriminate].
  cbn in H. injection H as <- <- <-.
  replace m with (n + (m - n))%nat by lia.
  now rewrite (exec_more_fuel _ _ (m - n) _ _ _ _ _ E).
Qed.

End RunFacts.

(** ** [handle_request] *)

Section HandleRequest.

Context {W : Type} (sys : forall X, sysE X -> W -> X * W).

(** Every run of [handle_request], by the answers the system gives. *)
Lemma exec_handle_request conn fuel w :
  exec sys (4 + fuel) (handle_request conn) w =
  let (r1, w1) := sys _ (Recv conn BUFFER_SIZE) w in
  match r1 with
  | Err e =>
      ([Call (Recv conn BUFFER_SIZE) (Err e)], w1, Some (Raised e, (2 + fuel)%nat))
  | Ok request =>
      if truth request then
        let (r2, w2) := sys _ (Print (decode_ignore request)) w1 in
        match r2 with
        | Err e =>
            ([Call (Recv conn BUFFER_SIZE) (Ok request);
              Call (Print (decode_ignore request)) (Err e)],
             w2, Some (Raised e, (1 + fuel)%nat))
        | Ok _ =>
            let (r3, w3) := sys _ (Sendall conn response) w2 in
            ([Call (Recv conn BUFFER_SIZE) (Ok request);
              Call (Print (decode_ignore request)) (Ok tt);
              Call (Sendall conn response) r3],
             w3,
             Some (match r3 with Ok _ => Returned tt | Err e => Raised e end, fuel))
        end
      else
        ([Call (Recv conn BUFFER_SIZE) (Ok request)], w1,
         Some (Returned tt, (2 + fuel)%nat))
  end.
Proof.
  cbn. destruct (sys _ (Recv conn BUFFER_SIZE) w) as [[request|e] w1]; cbn;
    [|reflexivity].
  destruct request as [|x request]; cbn; [reflexivity|].
  destruct (sys _ (Print (decode_ignore (x :: request))) w1) as [[[]|e] w2]; cbn;
    [|reflexivity].
  destruct (sys _ (Sendall conn response) w2) as [[[]|e] w3]; reflexivity.
Qed.

End HandleRequest.

Section HandleRequestRuns.

Context {W : Type} (sys : forall X, sysE X -> W -> X * W).

(** The run on a non-empty read whose log line went out. *)
Lemma run_handle_request_nonempty conn request w w1 w2 fuel :
  sys _ (Recv conn BUFFER_SIZE) w = (Ok request, w1) ->
  request <> [] ->
  sys _ (Print (decode_ignore request)) w1 = (Ok tt, w2) ->
  (4 <= fuel)%nat ->
  run sys fuel (handle_request conn) w =
  ([Call (Recv conn BUFFER_SIZE) (Ok request);
    Call (Print (decode_ignore request)) (Ok tt);
    Call (Sendall conn response) (fst (sys _ (Sendall conn response) w2))],
   snd (sys _ (Sendall conn response) w2),
   Some (match fst (sys _ (Sendall conn response) w2) with
         | Ok _ => Returned tt
         | Err e => Raised e
         end)).
Proof.
  intros Hrecv Hne Hprint Hfuel.
  apply run_more_fuel with (n := 4%nat); [|exact Hfuel].
  unfold run.
  change 4%nat with (4 + 0)%nat. rewrite exec_handle_request, Hrecv.
  destruct request as [|x request]; [congruence|].
  cbn [truth]. rewrite Hprint.
  destruct (sys _ (Sendall conn response) w2) as [r w3]. reflexivity.
Qed.

(** The run on an empty read. *)
Lemma run_handle_request_empty conn w w1 fuel :
  sys _ (Recv conn BUFFER_SIZE) w = (Ok [], w1) ->
  (2 <= fuel)%nat ->
  run sys fuel (handle_request conn) w =
  ([Call (Recv conn BUFFER_SIZE) (Ok [])], w1, Some (Returned tt)).
Proof.
  intros Hrecv Hfuel.
  apply run_more_fuel with (n := 2%nat); [|exact Hfuel].
  unfold run. cbn. rewrite Hrecv. reflexivity.
Qed.

End HandleRequestRuns.

(** C1, as the code has it.  The claim promises the response for every
    non-empty read; the code prints the request first, and nothing guards
    that [print].  What holds: whenever the first read on a connection returns
    a non-empty byte string, whatever its content or length, and the [print]
    of the request returns, [handle_request] issues one write and no other,
    [sendall] on that connection with the whole fixed response, which is the
    status line [HTTP/1.1 200 OK], the header [Content-Type: text/plain], an
    empty line and the body [Hello, World!], each ended by a line feed.  The
    function returns when [sendall] does, and then the response has been
    written in full; when [sendall] raises, so does the function. *)
Theorem handle_request_sends_fixed_response
    {W : Type} (sys : forall X, sysE X -> W -> X * W)
    (conn : sock) (request : bytes) (w w1 w2 : W) (fuel : nat) :
  sys _ (Recv conn BUFFER_SIZE) w = (Ok request, w1) ->
  request <> [] ->
  sys _ (Print (decode_ignore request)) w1 = (Ok tt, w2) ->
  (4 <= fuel)%nat ->
  let (r, w3) := sys _ (Sendall conn response) w2 in
  run sys fuel (handle_request conn) w =
    ([Call (Recv conn BUFFER_SIZE) (Ok request);
      Call (Print (decode_ignore request)) (Ok tt);
      Call (Sendall conn response) r],
     w3,
     Some (match r with Ok _ => Returned tt | Err e => Raised e end))
  /\ sent (trace_of sys fuel (handle_request conn) w) = [(conn, response)]
  /\ delivered (trace_of sys fuel (handle_request conn) w) =
       match r with Ok _ => [(conn, response)] | Err _ => [] end
  /\ response =
       b "HTTP/1.1 200 OK" ++ LF ++ b "Content-Type: text/plain" ++ LF ++
       LF ++ b "Hello, World!" ++ LF.
Proof.
  intros Hrecv Hne Hprint Hfuel.
  pose proof (run_handle_request_nonempty sys _ _ _ _ _ _ Hrecv Hne Hprint Hfuel) as Hrun.
  unfold trace_of. rewrite Hrun.
  destruct (sys _ (Sendall conn response) w2) as [[[]|e] w3]; repeat split.
Qed.

Lemma handle_request_sends_fixed_response_witness :
  sent (trace_of scripted 4 (handle_request 5)
          [A_bytes (b "GET / HTTP/1.1"); A_ok; A_ok]) = [(5, response)]
  /\ delivered (trace_of scripted 4 (handle_request 5)
                  [A_bytes (b "GET / HTTP/1.1"); A_ok; A_ok]) = [(5, response)].
Proof.
  pose proof (@handle_request_sends_fixed_response _ scripted 5
                (b "GET / HTTP/1.1")
                [A_bytes (b "GET / HTTP/1.1"); A_ok; A_ok] [A_ok; A_ok] [A_ok] 4
                eq_refl ltac:(discriminate) eq_refl (le_n 4)) as H.
  exact (conj (proj1 (proj2 H)) (proj1 (proj2 (proj2 H)))).
Defined.

(** C1 as the claim states it fails: the read returns five bytes, the
    [print] of them raises (the pipe behind the standard output is broken),
    and [handle_request] ends with that error without a single write. *)
Lemma handle_request_sends_fixed_response_counterexample :
  scripted _ (Recv 5 BUFFER_SIZE) [A_bytes (b "GET /"); A_err 32; A_ok]
    = (Ok (b "GET /"), [A_err 32; A_ok])
  /\ b "GET /" <> []
  /\ run scripted 4 (handle_request 5) [A_bytes (b "GET /"); A_err 32; A_ok] =
       ([Call (Recv 5 BUFFER_SIZE) (Ok (b "GET /"));
         Call (Print (decode_ignore (b "GET /"))) (Err (mkOSError 32))],
        [A_ok], Some (Raised (mkOSError 32)))
  /\ sent (trace_of scripted 4 (handle_request 5)
             [A_bytes (b "GET /"); A_err 32; A_ok]) = []
  /\ sent (trace_of scripted 4 (handle_request 5)
             [A_bytes (b "GET /"); A_err 32; A_ok]) <> [(5, response)].
Proof.
  repeat split; discriminate.
Qed.

(** C2. When the read yields zero bytes, [handle_request] returns at once: the
    read is the only call it makes, and it writes nothing. *)
Theorem handle_request_empty_read_writes_nothing
    {W : Type} (sys : forall X, sysE X -> W -> X * W)
    (conn : sock) (w w1 : W) (fuel : nat) :
  sys _ (Recv conn BUFFER_SIZE) w = (Ok [], w1) ->
  (2 <= fuel)%nat ->
  run sys fuel (handle_request conn) w =
    ([Call (Recv conn BUFFER_SIZE) (Ok [])], w1, Some (Returned tt))
  /\ sent (trace_of sys fuel (handle_request conn) w) = [].
Proof.
  intros Hrecv Hfuel.
  pose proof (run_handle_request_empty sys _ _ _ _ Hrecv Hfuel) as Hrun.
  unfold trace_of. rewrite Hrun. split; reflexivity.
Qed.

Lemma handle_request_empty_read_writes_nothing_witness :
  run scripted 2 (handle_request 5) [A_bytes []; A_ok; A_ok] =
    ([Call (Recv 5 BUFFER_SIZE) (Ok [])], [A_ok; A_ok], Some (Returned tt))
  /\ sent (trace_of scripted 2 (handle_request 5) [A_bytes []; A_ok; A_ok]) = [].
Proof.
  exact (@handle_request_empty_read_writes_nothing _ scripted 5
           [A_bytes []; A_ok; A_ok] [A_ok; A_ok] 2 eq_refl (le_n 2)).
Defined.

(** C6, as the code has it.  The claim holds the response to be the same
    for any two non-empty reads; the unguarded [print] of the request stands
    between the read and the write.  What holds: any two runs of
    [handle_request] whose reads return non-empty byte strings and whose
    [print] of the request returns, on any two connections and under any two
    systems, make the same write, whatever was read: [sendall] of the fixed
    response, the one that begins with the status line [HTTP/1.1 200 OK].
    The bytes that go through are that response in each run whose [sendall]
    returns, and none in a run whose [sendall] raises. *)
Theorem response_independent_of_request
    {W1 W2 : Type}
    (sys1 : forall X, sysE X -> W1 -> X * W1)
    (sys2 : forall X, sysE X -> W2 -> X * W2)
    (conn1 conn2 : sock) (request1 request2 : bytes)
    (w1 w1' w1'' : W1) (w2 w2' w2'' : W2) (fuel1 fuel2 : nat) :
  sys1 _ (Recv conn1 BUFFER_SIZE) w1 = (Ok request1, w1') ->
  sys2 _ (Recv conn2 BUFFER_SIZE) w2 = (Ok request2, w2') ->
  request1 <> [] ->
  request2 <> [] ->
  sys1 _ (Print (decode_ignore request1)) w1' = (Ok tt, w1'') ->
  sys2 _ (Print (decode_ignore request2)) w2' = (Ok tt, w2'') ->
  (4 <= fuel1)%nat ->
  (4 <= fuel2)%nat ->
  writes conn1 (trace_of sys1 fuel1 (handle_request conn1) w1) =
  writes conn2 (trace_of sys2 fuel2 (handle_request conn2) w2)
  /\ writes conn1 (trace_of sys1 fuel1 (handle_request conn1) w1) = [response]
  /\ map snd (delivered (trace_of sys1 fuel1 (handle_request conn1) w1)) =
       match fst (sys1 _ (Sendall conn1 response) w1'') with
       | Ok _ => [response]
       | Err _ => []
       end
  /\ map snd (delivered (trace_of sys2 fuel2 (handle_request conn2) w2)) =
       match fst (sys2 _ (Sendall conn2 response) w2'') with
       | Ok _ => [response]
       | Err _ => []
       end
  /\ response =
       b "HTTP/1.1 200 OK" ++ LF ++ b "Content-Type: text/plain" ++ LF ++
       LF ++ b "Hello, World!" ++ LF.
Proof.
  intros Hr1 Hr2 Hne1 Hne2 Hp1 Hp2 Hf1 Hf2.
  unfold trace_of.
  rewrite (run_handle_request_nonempty sys1 _ _ _ _ _ _ Hr1 Hne1 Hp1 Hf1).
  rewrite (run_handle_request_nonempty sys2 _ _ _ _ _ _ Hr2 Hne2 Hp2 Hf2).
  unfold writes. cbn [fst flat_map written app].
  rewrite !Z.eqb_refl.
  destruct (sys1 _ (Sendall conn1 response) w1'') as [[[]|e1] v1];
    destruct (sys2 _ (Sendall conn2 response) w2'') as [[[]|e2] v2];
    repeat split.
Qed.

Lemma response_independent_of_request_witness :
  writes 5 (trace_of scripted 4 (handle_request 5)
              [A_bytes (b "GET / HTTP/1.1"); A_ok; A_ok]) =
  writes 9 (trace_of scripted 6 (handle_request 9)
              [A_bytes [x00; xff]; A_ok; A_ok])
  /\ map snd (delivered (trace_of scripted 4 (handle_request 5)
                           [A_bytes (b "GET / HTTP/1.1"); A_ok; A_ok])) = [response]
  /\ map snd (delivered (trace_of scripted 6 (handle_request 9)
                           [A_bytes [x00; xff]; A_ok; A_ok])) = [response].
Proof.
  pose proof (@response_independent_of_request _ _ scripted scripted 5 9
           (b "GET / HTTP/1.1") [x00; xff]
           [A_bytes (b "GET / HTTP/1.1"); A_ok; A_ok] [A_ok; A_ok] [A_ok]
           [A_bytes [x00; xff]; A_ok; A_ok] [A_ok; A_ok] [A_ok]
           4 6 eq_refl eq_refl ltac:(discriminate) ltac:(discriminate)
           eq_refl eq_refl (le_n 4) ltac:(repeat constructor)) as H.
  exact (conj (proj1 H)
           (conj (proj1 (proj2 (proj2 H))) (proj1 (proj2 (proj2 (proj2 H)))))).
Defined.

(** C6 as the claim states it fails: two connections whose reads both return
    bytes, one answered with the response and the other, on which the
    [print] of the request raises, with nothing. *)
Lemma response_independent_of_request_counterexample :
  scripted _ (Recv 5 BUFFER_SIZE) [A_bytes (b "GET /"); A_ok; A_ok]
    = (Ok (b "GET /"), [A_ok; A_ok])
  /\ scripted _ (Recv 9 BUFFER_SIZE) [A_bytes [xc3; xa9]; A_err 32; A_ok]
     = (Ok [xc3; xa9], [A_err 32; A_ok])
  /\ b "GET /" <> [] /\ [xc3; xa9] <> []
  /\ writes 5 (trace_of scripted 4 (handle_request 5)
                 [A_bytes (b "GET /"); A_ok; A_ok]) = [response]
  /\ writes 9 (trace_of scripted 4 (handle_request 9)
                 [A_bytes [xc3; xa9]; A_err 32; A_ok]) = []
  /\ writes 5 (trace_of scripted 4 (handle_request 5)
                 [A_bytes (b "GET /"); A_ok; A_ok])
     <> writes 9 (trace_of scripted 4 (handle_request 9)
                    [A_bytes [xc3; xa9]; A_err 32; A_ok]).
Proof.
  repeat split; discriminate.
Qed.

(** ** The accept loop of [serve_forever] *)

Ltac exec_step :=
  cbn [Nat.add after app fst snd];
  first [ rewrite exec_py_bind | rewrite exec_try_except
        | rewrite exec_syscall | rewrite exec_Ret ].

Section ServeIteration.

Context {W : Type} (sys : forall X, sysE X -> W -> X * W).

(** An interrupted [accept]: the iteration ends in [continue]. *)
Lemma exec_iteration_eintr listen_socket e w w1 fuel :
  sys _ (Accept listen_socket) w = (Err e, w1) ->
  errno e = errno.EINTR ->
  exec sys (2 + fuel) (serve_iteration listen_socket) w =
  ([Call (Accept listen_socket) (Err e)], w1, Some (Continued, fuel)).
Proof.
  intros Hacc Herr. unfold serve_iteration, socket.accept.
  do 3 exec_step. rewrite Hacc. cbn [fst snd after].
  rewrite Herr, Z.eqb_refl. unfold continue. now exec_step.
Qed.

(** Any other failure of [accept] is raised again. *)
Lemma exec_iteration_accept_fails listen_socket e w w1 fuel :
  sys _ (Accept listen_socket) w = (Err e, w1) ->
  errno e <> errno.EINTR ->
  exec sys (2 + fuel) (serve_iteration listen_socket) w =
  ([Call (Accept listen_socket) (Err e)], w1, Some (Raised e, fuel)).
Proof.
  intros Hacc Herr. unfold serve_iteration, socket.accept.
  do 3 exec_step. rewrite Hacc. cbn [fst snd after].
  apply Z.eqb_neq in Herr. rewrite Herr. unfold raise. now exec_step.
Qed.

(** A failed [fork] is raised. *)
Lemma exec_iteration_fork_fails listen_socket conn addr e w w1 w2 fuel :
  sys _ (Accept listen_socket) w = (Ok (conn, addr), w1) ->
  sys _ Fork w1 = (Err e, w2) ->
  exec sys (3 + fuel) (serve_iteration listen_socket) w =
  ([Call (Accept listen_socket) (Ok (conn, addr)); Call Fork (Err e)],
   w2, Some (Raised e, fuel)).
Proof.
  intros Hacc Hfork. unfold serve_iteration, socket.accept, os.fork.
  do 3 exec_step. rewrite Hacc. cbn [fst snd after].
  do 2 exec_step. rewrite Hfork. reflexivity.
Qed.

(** The parent after [fork]: it closes the connection and nothing else. *)
Lemma exec_iteration_parent listen_socket conn addr pid w w1 w2 fuel :
  sys _ (Accept listen_socket) w = (Ok (conn, addr), w1) ->
  sys _ Fork w1 = (Ok pid, w2) ->
  pid <> 0 ->
  exec sys (4 + fuel) (serve_iteration listen_socket) w =
  ([Call (Accept listen_socket) (Ok (conn, addr)); Call Fork (Ok pid);
    Call (Close conn) (fst (sys _ (Close conn) w2))],
   snd (sys _ (Close conn) w2),
   Some (match fst (sys _ (Close conn) w2) with
         | Ok _ => Returned tt
         | Err e => Raised e
         end, fuel)).
Proof.
  intros Hacc Hfork Hpid. unfold serve_iteration, socket.accept, os.fork.
  do 3 exec_step. rewrite Hacc. cbn [fst snd after].
  do 2 exec_step. rewrite Hfork. cbn [fst snd after].
  apply Z.eqb_neq in Hpid. rewrite Hpid. unfold socket.close.
  exec_step. destruct (sys _ (Close conn) w2) as [[[]|e] w3]; reflexivity.
Qed.

(** The child after [fork]. *)
Lemma exec_iteration_child listen_socket conn addr w w1 w2 fuel :
  sys _ (Accept listen_socket) w = (Ok (conn, addr), w1) ->
  sys _ Fork w1 = (Ok 0, w2) ->
  exists tr w' o rest,
    exec sys (8 + fuel) (serve_iteration listen_socket) w =
      (Call (Accept listen_socket) (Ok (conn, addr)) :: Call Fork (Ok 0) :: tr,
       w', Some (o, rest))
    /\ worker_run listen_socket conn tr o
    /\ (forall a, o <> Returned a) /\ o <> Continued /\ o <> Broke.
Proof.
  intros Hacc Hfork.
  unfold serve_iteration, socket.accept, os.fork, socket.close, os._exit.
  do 3 exec_step. rewrite Hacc. cbn [fst snd after].
  do 2 exec_step. rewrite Hfork. cbn [fst snd after Z.eqb].
  do 2 exec_step.
  destruct (sys _ (Close listen_socket) w2) as [[[]|e] w3]; cbn [fst snd after app].
  2:{ do 4 eexists. split; [reflexivity|]. split; [constructor|].
      repeat split; intros; discriminate. }
  exec_step.
  change (S (S (S (S (S fuel))))) with (4 + S fuel)%nat.
  rewrite exec_handle_request.
  destruct (sys _ (Recv conn BUFFER_SIZE) w3) as [[request|e] w4].
  2:{ do 4 eexists. split; [reflexivity|]. split; [constructor|].
      repeat split; intros; discriminate. }
  destruct request as [|x request]; cbn [truth].
  { do 2 exec_step.
    destruct (sys _ (Close conn) w4) as [[[]|e] w5]; cbn [fst snd after app].
    - exec_step. do 4 eexists. split; [reflexivity|].
      split; [apply (worker_empty_read _ _ (Ok tt))|].
      repeat split; intros; discriminate.
    - do 4 eexists. split; [reflexivity|].
      split; [apply (worker_empty_read _ _ (Err e))|].
      repeat split; intros; discriminate. }
  destruct (sys _ (Print (decode_ignore (x :: request))) w4) as [[[]|e] w5].
  2:{ do 4 eexists. split; [reflexivity|]. split; [now constructor|].
      repeat split; intros; discriminate. }
  destruct (sys _ (Sendall conn response) w5) as [[[]|e] w6].
  2:{ do 4 eexists. split; [reflexivity|]. split; [now constructor|].
      repeat split; intros; discriminate. }
  do 2 exec_step.
  destruct (sys _ (Close conn) w6) as [[[]|e] w7]; cbn [fst snd after app].
  - exec_step. do 4 eexists. split; [reflexivity|].
    split; [now apply (worker_served _ _ (x :: request) (Ok tt))|].
    repeat split; intros; discriminate.
  - do 4 eexists. split; [reflexivity|].
    split; [now apply (worker_served _ _ (x :: request) (Err e))|].
    repeat split; intros; discriminate.
Qed.

End ServeIteration.

(** ** [serve_forever] as a whole *)

Section ServeForever.

Context {W : Type} (sys : forall X, sysE X -> W -> X * W).

Lemma run_of_exec {R} (t : itree sysE R) n w tr w1 r rest :
  exec sys n t w = (tr, w1, Some (r, rest)) ->
  run sys n t w = (tr, w1, Some r).
Proof. unfold run. now intros ->. Qed.

Lemma started_at_accept_loop w0 listen_socket w :
  started sys w0 listen_socket w ->
  at_accept_loop sys w0 listen_socket 6 (startup_trace listen_socket) w.
Proof.
  intros (w1 & w2 & w3 & w4 & w5 & H1 & H2 & H3 & H4 & H5 & H6) fuel.
  unfold main, serve_forever, socket.socket, socket.setsockopt, socket.bind,
    socket.listen, print, signal.signal.
  do 2 exec_step. rewrite H1. cbn [fst snd after].
  do 2 exec_step. rewrite H2. cbn [fst snd after].
  do 2 exec_step. rewrite H3. cbn [fst snd after].
  do 2 exec_step. rewrite H4. cbn [fst snd after].
  do 2 exec_step. change (format_int PORT) with "8888"%string.
  cbn [String.append]. rewrite H5. cbn [fst snd after].
  exec_step. destruct fuel as [|fuel].
  { rewrite exec_syscall_1, H6. reflexivity. }
  exec_step. rewrite H6. cbn [fst snd after].
  destruct (exec sys (S fuel) (while_True (serve_iteration listen_socket)) w)
    as [[tr w'] o].
  reflexivity.
Qed.

End ServeForever.

Section AcceptLoop.

Context {W : Type} (sys : forall X, sysE X -> W -> X * W).

Local Abbreviation loop ls := (while_True (serve_iteration ls)).

Lemma exec_rest_lt {R} (t : itree sysE R) n w tr w1 r rest :
  exec sys n t w = (tr, w1, Some (r, rest)) -> (rest < n)%nat.
Proof.
  revert t w tr. induction n as [|n IH]; intros t w tr; [discriminate|].
  rewrite exec_S. destruct (observe t) as [r0|t'|X e h].
  - intros H. injection H as <- <- <- <-. lia.
  - intros H. apply IH in H. lia.
  - destruct (sys _ e w) as [x w'].
    destruct (exec sys n (h x) w') as [[tr' w2] o] eqn:E.
    intros H. injection H as <- <- ->. apply IH in E. lia.
Qed.

(** With more fuel a run only gets longer. *)
Lemma exec_trace_prefix {R} (t : itree sysE R) n k w :
  exists tr', fst (fst (exec sys (n + k) t w)) = fst (fst (exec sys n t w)) ++ tr'.
Proof.
  revert t w. induction n as [|n IH]; intros t w.
  - cbn [Nat.add exec fst app]. eauto.
  - cbn [Nat.add]. rewrite !exec_S. destruct (observe t) as [r0|t'|X e h].
    + exists []. reflexivity.
    + apply IH.
    + destruct (sys _ e w) as [x w']. destruct (IH (h x) w') as [tr' Htr'].
      destruct (exec sys (n + k) (h x) w') as [[tr1 w1] o1].
      destruct (exec sys n (h x) w') as [[tr2 w2] o2].
      cbn [fst] in *. exists tr'. now rewrite Htr'.
Qed.

Lemma loop_eintr listen_socket e w w1 fuel :
  sys _ (Accept listen_socket) w = (Err e, w1) ->
  errno e = errno.EINTR ->
  exec sys (2 + fuel) (loop listen_socket) w =
  after [Call (Accept listen_socket) (Err e)] (exec sys fuel (loop listen_socket) w1).
Proof.
  intros Hacc Herr.
  now rewrite exec_while_True, (exec_iteration_eintr sys _ _ _ _ _ Hacc Herr).
Qed.

Lemma loop_accept_fails listen_socket e w w1 fuel :
  sys _ (Accept listen_socket) w = (Err e, w1) ->
  errno e <> errno.EINTR ->
  exec sys (2 + fuel) (loop listen_socket) w =
  ([Call (Accept listen_socket) (Err e)], w1, Some (Raised e, fuel)).
Proof.
  intros Hacc Herr.
  now rewrite exec_while_True, (exec_iteration_accept_fails sys _ _ _ _ _ Hacc Herr).
Qed.

Lemma loop_fork_fails listen_socket conn addr e w w1 w2 fuel :
  sys _ (Accept listen_socket) w = (Ok (conn, addr), w1) ->
  sys _ Fork w1 = (Err e, w2) ->
  exec sys (3 + fuel) (loop listen_socket) w =
  ([Call (Accept listen_socket) (Ok (conn, addr)); Call Fork (Err e)],
   w2, Some (Raised e, fuel)).
Proof.
  intros Hacc Hfork.
  now rewrite exec_while_True,
    (exec_iteration_fork_fails sys _ _ _ _ _ _ _ _ Hacc Hfork).
Qed.

Lemma loop_parent listen_socket conn addr pid w w1 w2 fuel :
  sys _ (Accept listen_socket) w = (Ok (conn, addr), w1) ->
  sys _ Fork w1 = (Ok pid, w2) ->
  pid <> 0 ->
  exec sys (4 + fuel) (loop listen_socket) w =
  match fst (sys _ (Close conn) w2) with
  | Ok _ =>
      after [Call (Accept listen_socket) (Ok (conn, addr)); Call Fork (Ok pid);
             Call (Close conn) (Ok tt)]
        (exec sys fuel (loop listen_socket) (snd (sys _ (Close conn) w2)))
  | Err e =>
      ([Call (Accept listen_socket) (Ok (conn, addr)); Call Fork (Ok pid);
        Call (Close conn) (Err e)],
       snd (sys _ (Close conn) w2), Some (Raised e, fuel))
  end.
Proof.
  intros Hacc Hfork Hpid.
  rewrite exec_while_True,
    (exec_iteration_parent sys _ _ _ _ _ _ _ _ Hacc Hfork Hpid).
  destruct (sys _ (Close conn) w2) as [[[]|e] w3]; reflexivity.
Qed.

Lemma loop_child listen_socket conn addr w w1 w2 fuel :
  sys _ (Accept listen_socket) w = (Ok (conn, addr), w1) ->
  sys _ Fork w1 = (Ok 0, w2) ->
  exists tr w' o rest,
    exec sys (8 + fuel) (loop listen_socket) w =
      (Call (Accept listen_socket) (Ok (conn, addr)) :: Call Fork (Ok 0) :: tr,
       w', Some (o, rest))
    /\ worker_run listen_socket conn tr o.
Proof.
  intros Hacc Hfork.
  destruct (exec_iteration_child sys _ _ _ _ _ _ fuel Hacc Hfork)
    as (tr & w' & o & rest & Hexec & Hrun & Hret & Hcont & Hbrk).
  exists tr, w', o, rest. split; [|exact Hrun].
  rewrite exec_while_True, Hexec.
  destruct o as [a|e|c| |]; try reflexivity.
  - now destruct (Hret a).
  - now destruct Hcont.
  - now destruct Hbrk.
Qed.

(** Every call of one iteration in the parent is a Listener call. *)
Lemma iteration_listener_calls listen_socket fuel w :
  (forall w, fst (sys _ Fork w) <> Ok 0) ->
  (forall w conn addr,
      fst (sys _ (Accept listen_socket) w) = Ok (conn, addr) ->
      conn <> listen_socket) ->
  Forall (listener_call listen_socket)
    (fst (fst (exec sys fuel (serve_iteration listen_socket) w))).
Proof.
  intros Hparent Hfresh.
  destruct (exec_trace_prefix (serve_iteration listen_socket) fuel 4 w)
    as [tr' Hpre].
  assert (Forall (listener_call listen_socket)
            (fst (fst (exec sys (fuel + 4) (serve_iteration listen_socket) w))))
    as Hall.
  { clear Hpre tr'.
    destruct (sys _ (Accept listen_socket) w) as [[[conn addr]|e] w1] eqn:Hacc.
    - pose proof (Hfresh w conn addr) as Hne. rewrite Hacc in Hne.
      specialize (Hne eq_refl).
      destruct (sys _ Fork w1) as [[pid|e] w2] eqn:Hfork.
      + assert (pid <> 0) as Hpid.
        { intros ->. apply (Hparent w1). now rewrite Hfork. }
        replace (fuel + 4)%nat with (4 + fuel)%nat by lia.
        rewrite (exec_iteration_parent sys _ _ _ _ _ _ _ _ Hacc Hfork Hpid).
        cbn [fst]. repeat constructor. exact Hne.
      + replace (fuel + 4)%nat with (3 + (fuel + 1))%nat by lia.
        rewrite (exec_iteration_fork_fails sys _ _ _ _ _ _ _ _ Hacc Hfork).
        cbn [fst]. repeat constructor.
    - replace (fuel + 4)%nat with (2 + (fuel + 2))%nat by lia.
      destruct (Z.eq_dec (errno e) errno.EINTR) as [Herr|Herr].
      + rewrite (exec_iteration_eintr sys _ _ _ _ _ Hacc Herr).
        cbn [fst]. repeat constructor.
      + rewrite (exec_iteration_accept_fails sys _ _ _ _ _ Hacc Herr).
        cbn [fst]. repeat constructor. }
  rewrite Hpre in Hall. now apply Forall_app in Hall.
Qed.

(** Every call of the loop, however long it runs, is a Listener call. *)
Lemma loop_listener_calls listen_socket fuel w :
  (forall w, fst (sys _ Fork w) <> Ok 0) ->
  (forall w conn addr,
      fst (sys _ (Accept listen_socket) w) = Ok (conn, addr) ->
      conn <> listen_socket) ->
  Forall (listener_call listen_socket)
    (fst (fst (exec sys fuel (loop listen_socket) w))).
Proof.
  intros Hparent Hfresh. revert w.
  induction fuel as [fuel IH] using lt_wf_ind. intros w.
  rewrite exec_while_True.
  pose proof (iteration_listener_calls listen_socket fuel w Hparent Hfresh) as Hit.
  destruct (exec sys fuel (serve_iteration listen_socket) w)
    as [[tr w1] [[o rest]|]] eqn:E; cbn [fst] in Hit; [|exact Hit].
  apply exec_rest_lt in E.
  destruct o as [[]|e|c| |]; cbn [fst]; try exact Hit.
  - specialize (IH rest E w1).
    destruct (exec sys rest (loop listen_socket) w1) as [[tr2 w2] o2].
    cbn [after fst] in *. now apply Forall_app.
  - specialize (IH rest E w1).
    destruct (exec sys rest (loop listen_socket) w1) as [[tr2 w2] o2].
    cbn [after fst] in *. now apply Forall_app.
Qed.

(** From the top of the loop to the top of the loop. *)
Lemma at_accept_loop_retry w0 listen_socket n tr w e w1 :
  at_accept_loop sys w0 listen_socket n tr w ->
  sys _ (Accept listen_socket) w = (Err e, w1) ->
  errno e = errno.EINTR ->
  at_accept_loop sys w0 listen_socket (n + 2)
    (tr ++ [Call (Accept listen_socket) (Err e)]) w1.
Proof.
  intros Hat Hacc Herr fuel.
  replace (n + 2 + fuel)%nat with (n + (2 + fuel))%nat by lia.
  now rewrite Hat, (loop_eintr _ _ _ _ _ Hacc Herr), after_app.
Qed.

Lemma at_accept_loop_parent w0 listen_socket n tr w conn addr pid w1 w2 w3 :
  at_accept_loop sys w0 listen_socket n tr w ->
  sys _ (Accept listen_socket) w = (Ok (conn, addr), w1) ->
  sys _ Fork w1 = (Ok pid, w2) ->
  pid <> 0 ->
  sys _ (Close conn) w2 = (Ok tt, w3) ->
  at_accept_loop sys w0 listen_socket (n + 4)
    (tr ++ [Call (Accept listen_socket) (Ok (conn, addr)); Call Fork (Ok pid);
            Call (Close conn) (Ok tt)]) w3.
Proof.
  intros Hat Hacc Hfork Hpid Hclose fuel.
  replace (n + 4 + fuel)%nat with (n + (4 + fuel))%nat by lia.
  now rewrite Hat, (loop_parent _ _ _ _ _ _ _ _ Hacc Hfork Hpid), Hclose, after_app.
Qed.

(** When the loop ends, [main] ends with it. *)
Lemma at_accept_loop_ends w0 listen_socket n tr w m tr' w' o rest fuel :
  at_accept_loop sys w0 listen_socket n tr w ->
  exec sys m (loop listen_socket) w = (tr', w', Some (o, rest)) ->
  (n + m <= fuel)%nat ->
  run sys fuel main w0 = (tr ++ tr', w', Some o).
Proof.
  intros Hat Hloop Hfuel.
  apply run_more_fuel with (n := (n + m)%nat); [|exact Hfuel].
  apply run_of_exec with (rest := rest).
  now rewrite Hat, Hloop.
Qed.

End AcceptLoop.

Section AcceptLoopCalls.

Context {W : Type} (sys : forall X, sysE X -> W -> X * W).

(** The loop always begins with [accept] on the listening socket. *)
Lemma loop_first_call listen_socket fuel w :
  exists rest,
    fst (fst (exec sys (S fuel) (while_True (serve_iteration listen_socket)) w)) =
    Call (Accept listen_socket) (fst (sys _ (Accept listen_socket) w)) :: rest.
Proof.
  destruct (exec_trace_prefix sys (while_True (serve_iteration listen_socket)) 1 fuel w)
    as [tr' Hpre].
  exists tr'. cbn [Nat.add] in Hpre. rewrite Hpre.
  rewrite exec_while_True. unfold serve_iteration, socket.accept.
  now rewrite exec_py_bind, exec_try_except, exec_syscall_1.
Qed.

End AcceptLoopCalls.

(** The scripted system lets the start-up through when its script begins with
    the six successful answers. *)
Lemma scripted_started (listen_socket : sock) (script : list answer) :
  started scripted
    (A_sock listen_socket :: A_ok :: A_ok :: A_ok :: A_ok :: A_ok :: script)
    listen_socket script.
Proof.
  unfold started. do 5 eexists. repeat split; reflexivity.
Qed.

(** C3. At the top of the accept loop, when [accept] fails with [OSError]:
    if the errno is [EINTR], nothing else is done and [main] is at the top of
    the loop again, so its next call is [accept] on the same socket; with any
    other errno the exception leaves the loop and ends [main], the process
    exiting with status 1. *)
Theorem accept_eintr_retried_other_errors_fatal
    {W : Type} (sys : forall X, sysE X -> W -> X * W)
    (w0 : W) (listen_socket : sock) (n : nat) (tr : list entry) (w w1 : W)
    (e : OSError) :
  at_accept_loop sys w0 listen_socket n tr w ->
  sys _ (Accept listen_socket) w = (Err e, w1) ->
  if errno e =? errno.EINTR then
    at_accept_loop sys w0 listen_socket (n + 2)
      (tr ++ [Call (Accept listen_socket) (Err e)]) w1
    /\ (forall fuel, (n + 3 <= fuel)%nat ->
        exists rest,
          trace_of sys fuel main w0 =
          tr ++ Call (Accept listen_socket) (Err e)
             :: Call (Accept listen_socket) (fst (sys _ (Accept listen_socket) w1))
             :: rest)
  else
    forall fuel, (n + 2 <= fuel)%nat ->
      run sys fuel main w0 =
        (tr ++ [Call (Accept listen_socket) (Err e)], w1, Some (Raised e))
      /\ exit_status (Raised e : outcome unit) = 1.
Proof.
  intros Hat Hacc.
  destruct (Z.eqb_spec (errno e) errno.EINTR) as [Herr|Herr].
  - pose proof (at_accept_loop_retry sys _ _ _ _ _ _ _ Hat Hacc Herr) as Hat'.
    split; [exact Hat'|].
    intros fuel Hfuel.
    replace fuel with (n + 2 + S (fuel - n - 3))%nat by lia.
    unfold trace_of, run. rewrite Hat'.
    destruct (loop_first_call sys listen_socket (fuel - n - 3) w1) as [rest Hrest].
    destruct (exec sys (S (fuel - n - 3)) (while_True (serve_iteration listen_socket)) w1)
      as [[tr2 w2] o].
    cbn [fst after] in *. subst tr2. exists rest.
    now rewrite <- app_assoc.
  - intros fuel Hfuel. split; [|reflexivity].
    apply (at_accept_loop_ends sys _ _ _ _ _ 2 _ _ _ 0%nat _ Hat); [|exact Hfuel].
    exact (loop_accept_fails sys _ _ _ _ 0 Hacc Herr).
Qed.

Lemma accept_eintr_retried_other_errors_fatal_witness :
  exists rest,
    trace_of scripted 12 main
      [A_sock 3; A_ok; A_ok; A_ok; A_ok; A_ok; A_err 4; A_conn 7 (""%string, 9)] =
    startup_trace 3
      ++ Call (Accept 3) (Err (mkOSError 4))
      :: Call (Accept 3) (Ok (7, (""%string, 9))) :: rest.
Proof.
  exact (proj2
    (@accept_eintr_retried_other_errors_fatal _ scripted
       [A_sock 3; A_ok; A_ok; A_ok; A_ok; A_ok; A_err 4; A_conn 7 (""%string, 9)]
       3 6 (startup_trace 3) [A_err 4; A_conn 7 (""%string, 9)]
       [A_conn 7 (""%string, 9)] (mkOSError 4)
       (started_at_accept_loop scripted _ _ _ (scripted_started 3 _)) eq_refl)
    12%nat ltac:(repeat constructor)).
Defined.

(** C10. At the top of the accept loop, when [accept] has returned a
    connection and [fork] then fails, whatever the errno (also [EINTR]), the
    exception is caught nowhere: [main] ends with it after those two calls,
    the process exiting with status 1. *)
Theorem fork_failure_is_fatal
    {W : Type} (sys : forall X, sysE X -> W -> X * W)
    (w0 : W) (listen_socket : sock) (n : nat) (tr : list entry) (w w1 w2 : W)
    (conn : sock) (addr : address) (e : OSError) (fuel : nat) :
  at_accept_loop sys w0 listen_socket n tr w ->
  sys _ (Accept listen_socket) w = (Ok (conn, addr), w1) ->
  sys _ Fork w1 = (Err e, w2) ->
  (n + 3 <= fuel)%nat ->
  run sys fuel main w0 =
    (tr ++ [Call (Accept listen_socket) (Ok (conn, addr)); Call Fork (Err e)],
     w2, Some (Raised e))
  /\ exit_status (Raised e : outcome unit) = 1.
Proof.
  intros Hat Hacc Hfork Hfuel. split; [|reflexivity].
  apply (at_accept_loop_ends sys _ _ _ _ _ 3 _ _ _ 0%nat _ Hat); [|exact Hfuel].
  exact (loop_fork_fails sys _ _ _ _ _ _ _ 0 Hacc Hfork).
Qed.

Lemma fork_failure_is_fatal_witness :
  run scripted 9 main
    [A_sock 3; A_ok; A_ok; A_ok; A_ok; A_ok; A_conn 7 (""%string, 9); A_err 4; A_ok] =
  (startup_trace 3
     ++ [Call (Accept 3) (Ok (7, (""%string, 9))); Call Fork (Err (mkOSError 4))],
   [A_ok], Some (Raised (mkOSError 4))).
Proof.
  exact (proj1
    (@fork_failure_is_fatal _ scripted
       [A_sock 3; A_ok; A_ok; A_ok; A_ok; A_ok; A_conn 7 (""%string, 9); A_err 4; A_ok]
       3 6 (startup_trace 3) [A_conn 7 (""%string, 9); A_err 4; A_ok]
       [A_err 4; A_ok] [A_ok] 7 (""%string, 9) (mkOSError 4) 9
       (started_at_accept_loop scripted _ _ _ (scripted_started 3 _))
       eq_refl eq_refl ltac:(repeat constructor))).
Defined.

(** ** The two sides of [fork] *)

(** The process in which [fork] returned 0, seen from [main]. *)
Lemma worker_main_run
    {W : Type} (sys : forall X, sysE X -> W -> X * W)
    (w0 : W) (listen_socket : sock) (n : nat) (tr : list entry) (w w1 w2 : W)
    (conn : sock) (addr : address) :
  at_accept_loop sys w0 listen_socket n tr w ->
  sys _ (Accept listen_socket) w = (Ok (conn, addr), w1) ->
  sys _ Fork w1 = (Ok 0, w2) ->
  exists tr' w' o,
    (forall fuel, (n + 8 <= fuel)%nat ->
       run sys fuel main w0 =
       (tr ++ Call (Accept listen_socket) (Ok (conn, addr)) :: Call Fork (Ok 0) :: tr',
        w', Some o))
    /\ worker_run listen_socket conn tr' o.
Proof.
  intros Hat Hacc Hfork.
  destruct (loop_child sys _ _ _ _ _ _ 0 Hacc Hfork)
    as (tr' & w' & o & rest & Hexec & Hrun).
  exists tr', w', o. split; [|exact Hrun].
  intros fuel Hfuel.
  exact (at_accept_loop_ends sys _ _ _ _ _ _ _ _ _ _ _ Hat Hexec Hfuel).
Qed.

(** C7. In the process where [fork] returned 0 the calls after [fork] follow
    one line: close the listening socket, read from the connection, print and
    write the response when the read was not empty, close the connection, and
    leave through [os._exit(0)].  Either every call succeeds and the trace is
    exactly that sequence, or the trace is that sequence up to the first call
    that fails, whose exception ends the process; the listening socket is
    closed before the connection is touched, and there is no other path. *)
Theorem worker_linear_sequence
    {W : Type} (sys : forall X, sysE X -> W -> X * W)
    (w0 : W) (listen_socket : sock) (n : nat) (tr : list entry) (w w1 w2 : W)
    (conn : sock) (addr : address) :
  at_accept_loop sys w0 listen_socket n tr w ->
  sys _ (Accept listen_socket) w = (Ok (conn, addr), w1) ->
  sys _ Fork w1 = (Ok 0, w2) ->
  exists tr' w' o,
    (forall fuel, (n + 8 <= fuel)%nat ->
       run sys fuel main w0 =
       (tr ++ Call (Accept listen_socket) (Ok (conn, addr)) :: Call Fork (Ok 0) :: tr',
        w', Some o))
    /\ ((o = Exited 0 /\ exists request, tr' = worker_trace listen_socket conn request)
        \/ (exists e X (c : sysE (result X)) (x : X) pre post request,
              o = Raised e
              /\ tr' = pre ++ [Call c (Err e)]
              /\ worker_trace listen_socket conn request
                 = pre ++ Call c (Ok x) :: post)).
Proof.
  intros Hat Hacc Hfork.
  destruct (worker_main_run sys _ _ _ _ _ _ _ _ _ Hat Hacc Hfork)
    as (tr' & w' & o & Hmain & Hrun).
  exists tr', w', o. split; [exact Hmain|].
  destruct Hrun as [e|e|r|request e Hne|request e Hne|request r Hne].
  - right. exists e, unit, (Close listen_socket), tt, [], 
      [Call (Recv conn BUFFER_SIZE) (Ok []); Call (Close conn) (Ok tt)], [].
    repeat split.
  - right. exists e, bytes, (Recv conn BUFFER_SIZE), [],
      [Call (Close listen_socket) (Ok tt)], [Call (Close conn) (Ok tt)], [].
    repeat split.
  - destruct r as [[]|e].
    + left. split; [reflexivity|]. exists []. reflexivity.
    + right. exists e, unit, (Close conn), tt,
        [Call (Close listen_socket) (Ok tt); Call (Recv conn BUFFER_SIZE) (Ok [])],
        [], [].
      repeat split.
  - right. exists e, unit, (Print (decode_ignore request)), tt,
      [Call (Close listen_socket) (Ok tt); Call (Recv conn BUFFER_SIZE) (Ok request)],
      [Call (Sendall conn response) (Ok tt); Call (Close conn) (Ok tt)], request.
    destruct request; [congruence|]. repeat split.
  - right. exists e, unit, (Sendall conn response), tt,
      [Call (Close listen_socket) (Ok tt); Call (Recv conn BUFFER_SIZE) (Ok request);
       Call (Print (decode_ignore request)) (Ok tt)],
      [Call (Close conn) (Ok tt)], request.
    destruct request; [congruence|]. repeat split.
  - destruct r as [[]|e].
    + left. split; [reflexivity|]. exists request.
      destruct request; [congruence|]. reflexivity.
    + right. exists e, unit, (Close conn), tt,
        [Call (Close listen_socket) (Ok tt); Call (Recv conn BUFFER_SIZE) (Ok request);
         Call (Print (decode_ignore request)) (Ok tt);
         Call (Sendall conn response) (Ok tt)],
        [], request.
      destruct request; [congruence|]. repeat split.
Qed.

Lemma worker_linear_sequence_witness :
  exists tr' w' o,
    (forall fuel, (6 + 8 <= fuel)%nat ->
       run scripted fuel main
         [A_sock 3; A_ok; A_ok; A_ok; A_ok; A_ok; A_conn 7 (""%string, 9); A_pid 0;
          A_ok; A_bytes (b "GET /"); A_ok; A_ok; A_ok] =
       (startup_trace 3
          ++ Call (Accept 3) (Ok (7, (""%string, 9))) :: Call Fork (Ok 0) :: tr',
        w', Some o))
    /\ ((o = Exited 0 /\ exists request, tr' = worker_trace 3 7 request)
        \/ (exists e X (c : sysE (result X)) (x : X) pre post request,
              o = Raised e
              /\ tr' = pre ++ [Call c (Err e)]
              /\ worker_trace 3 7 request = pre ++ Call c (Ok x) :: post)).
Proof.
  exact (@worker_linear_sequence _ scripted
           [A_sock 3; A_ok; A_ok; A_ok; A_ok; A_ok; A_conn 7 (""%string, 9); A_pid 0;
            A_ok; A_bytes (b "GET /"); A_ok; A_ok; A_ok]
           3 6 (startup_trace 3)
           [A_conn 7 (""%string, 9); A_pid 0;
            A_ok; A_bytes (b "GET /"); A_ok; A_ok; A_ok]
           [A_pid 0; A_ok; A_bytes (b "GET /"); A_ok; A_ok; A_ok]
           [A_ok; A_bytes (b "GET /"); A_ok; A_ok; A_ok]
           7 (""%string, 9)
           (started_at_accept_loop scripted _ _ _ (scripted_started 3 _))
           eq_refl eq_refl).
Defined.

(** The process in which [fork] returned a child's pid, seen from [main]: it
    closes the connection and is back at the top of the loop, or ends with the
    exception of that [close]. *)
Lemma listener_main_run
    {W : Type} (sys : forall X, sysE X -> W -> X * W)
    (w0 : W) (listen_socket : sock) (n : nat) (tr : list entry) (w w1 w2 : W)
    (conn : sock) (addr : address) (pid : Z) :
  at_accept_loop sys w0 listen_socket n tr w ->
  sys _ (Accept listen_socket) w = (Ok (conn, addr), w1) ->
  sys _ Fork w1 = (Ok pid, w2) ->
  pid <> 0 ->
  match fst (sys _ (Close conn) w2) with
  | Ok _ =>
      at_accept_loop sys w0 listen_socket (n + 4)
        (tr ++ [Call (Accept listen_socket) (Ok (conn, addr)); Call Fork (Ok pid);
                Call (Close conn) (Ok tt)])
        (snd (sys _ (Close conn) w2))
  | Err e =>
      forall fuel, (n + 4 <= fuel)%nat ->
        run sys fuel main w0 =
        (tr ++ [Call (Accept listen_socket) (Ok (conn, addr)); Call Fork (Ok pid);
                Call (Close conn) (Err e)],
         snd (sys _ (Close conn) w2), Some (Raised e))
  end.
Proof.
  intros Hat Hacc Hfork Hpid.
  destruct (sys _ (Close conn) w2) as [[[]|e] w3] eqn:Hclose; cbn [fst snd].
  - exact (at_accept_loop_parent sys _ _ _ _ _ _ _ _ _ _ _ Hat Hacc Hfork Hpid Hclose).
  - intros fuel Hfuel.
    apply (at_accept_loop_ends sys _ _ _ _ _ 4 _ _ _ 0%nat _ Hat); [|exact Hfuel].
    pose proof (loop_parent sys _ _ _ _ _ _ _ 0 Hacc Hfork Hpid) as Hloop.
    rewrite Hclose in Hloop. exact Hloop.
Qed.

(** C5. The two processes a [fork] leaves, for the same accepted connection.
    In the worker ([fork] returned 0) the calls after [fork] never include
    another [accept], and the process ends there: when all its calls succeed,
    the last one is the [close] of the connection and it leaves with exit
    status 0; otherwise the first failing call raises, nothing catches the
    exception and that process exits with status 1.  The Listener ([fork]
    returned a pid) only closes the connection and is at the top of its loop
    again, whatever happened in the worker; only a failure of its own [close]
    can end it. *)
Theorem worker_error_stays_in_worker
    {W V : Type}
    (sysW : forall X, sysE X -> W -> X * W)
    (sysL : forall X, sysE X -> V -> X * V)
    (listen_socket conn : sock) (addr : address)
    (w0 w w1 w2 : W) (n : nat) (tr : list entry)
    (v0 v v1 v2 : V) (m : nat) (trL : list entry) (pid : Z) :
  at_accept_loop sysW w0 listen_socket n tr w ->
  sysW _ (Accept listen_socket) w = (Ok (conn, addr), w1) ->
  sysW _ Fork w1 = (Ok 0, w2) ->
  at_accept_loop sysL v0 listen_socket m trL v ->
  sysL _ (Accept listen_socket) v = (Ok (conn, addr), v1) ->
  sysL _ Fork v1 = (Ok pid, v2) ->
  pid <> 0 ->
  (exists tr' w' o,
      (forall fuel, (n + 8 <= fuel)%nat ->
         run sysW fuel main w0 =
         (tr ++ Call (Accept listen_socket) (Ok (conn, addr))
             :: Call Fork (Ok 0) :: tr',
          w', Some o))
      /\ Forall (fun en => is_accept en = false) tr'
      /\ ((all_succeeded tr' = true
           /\ o = Exited 0 /\ exit_status o = 0
           /\ exists pre, tr' = pre ++ [Call (Close conn) (Ok tt)])
          \/ (exists e pre X (c : sysE (result X)),
                all_succeeded pre = true
                /\ tr' = pre ++ [Call c (Err e)]
                /\ o = Raised e /\ exit_status o = 1)))
  /\ match fst (sysL _ (Close conn) v2) with
     | Ok _ =>
         at_accept_loop sysL v0 listen_socket (m + 4)
           (trL ++ [Call (Accept listen_socket) (Ok (conn, addr));
                    Call Fork (Ok pid); Call (Close conn) (Ok tt)])
           (snd (sysL _ (Close conn) v2))
     | Err e =>
         forall fuel, (m + 4 <= fuel)%nat ->
           run sysL fuel main v0 =
           (trL ++ [Call (Accept listen_socket) (Ok (conn, addr));
                    Call Fork (Ok pid); Call (Close conn) (Err e)],
            snd (sysL _ (Close conn) v2), Some (Raised e))
     end.
Proof.
  intros Hat Hacc Hfork HatL HaccL HforkL Hpid.
  split; [|exact (listener_main_run sysL _ _ _ _ _ _ _ _ _ _ HatL HaccL HforkL Hpid)].
  destruct (worker_main_run sysW _ _ _ _ _ _ _ _ _ Hat Hacc Hfork)
    as (tr' & w' & o & Hmain & Hrun).
  exists tr', w', o. split; [exact Hmain|].
  destruct Hrun as [e|e|r|request e Hne|request e Hne|request r Hne].
  - split; [repeat constructor|].
    right. exists e, [], unit, (Close listen_socket). repeat split.
  - split; [repeat constructor|].
    right. exists e, [Call (Close listen_socket) (Ok tt)], bytes,
      (Recv conn BUFFER_SIZE). repeat split.
  - split; [repeat constructor|].
    destruct r as [[]|e].
    + left. repeat split.
      exists [Call (Close listen_socket) (Ok tt); Call (Recv conn BUFFER_SIZE) (Ok [])].
      reflexivity.
    + right. exists e,
        [Call (Close listen_socket) (Ok tt); Call (Recv conn BUFFER_SIZE) (Ok [])],
        unit, (Close conn). repeat split.
  - split; [repeat constructor|].
    right. exists e,
      [Call (Close listen_socket) (Ok tt); Call (Recv conn BUFFER_SIZE) (Ok request)],
      unit, (Print (decode_ignore request)). repeat split.
  - split; [repeat constructor|].
    right. exists e,
      [Call (Close listen_socket) (Ok tt); Call (Recv conn BUFFER_SIZE) (Ok request);
       Call (Print (decode_ignore request)) (Ok tt)],
      unit, (Sendall conn response). repeat split.
  - split; [repeat constructor|].
    destruct r as [[]|e].
    + left. repeat split.
      exists [Call (Close listen_socket) (Ok tt);
              Call (Recv conn BUFFER_SIZE) (Ok request);
              Call (Print (decode_ignore request)) (Ok tt);
              Call (Sendall conn response) (Ok tt)].
      reflexivity.
    + right. exists e,
        [Call (Close listen_socket) (Ok tt); Call (Recv conn BUFFER_SIZE) (Ok request);
         Call (Print (decode_ignore request)) (Ok tt);
         Call (Sendall conn response) (Ok tt)],
        unit, (Close conn). repeat split.
Qed.

Lemma worker_error_stays_in_worker_witness :
  (exists tr' w' o,
      (forall fuel, (6 + 8 <= fuel)%nat ->
         run scripted fuel main
           [A_sock 3; A_ok; A_ok; A_ok; A_ok; A_ok; A_conn 7 (""%string, 9); A_pid 0;
            A_ok; A_bytes (b "GET /"); A_ok; A_err 104] =
         (startup_trace 3
            ++ Call (Accept 3) (Ok (7, (""%string, 9))) :: Call Fork (Ok 0) :: tr',
          w', Some o))
      /\ Forall (fun en => is_accept en = false) tr'
      /\ ((all_succeeded tr' = true
           /\ o = Exited 0 /\ exit_status o = 0
           /\ exists pre, tr' = pre ++ [Call (Close 7) (Ok tt)])
          \/ (exists e pre X (c : sysE (result X)),
                all_succeeded pre = true
                /\ tr' = pre ++ [Call c (Err e)]
                /\ o = Raised e /\ exit_status o = 1)))
  /\ at_accept_loop scripted
       [A_sock 3; A_ok; A_ok; A_ok; A_ok; A_ok; A_conn 7 (""%string, 9); A_pid 12;
        A_ok; A_err 4]
       3 (6 + 4)
       (startup_trace 3
          ++ [Call (Accept 3) (Ok (7, (""%string, 9))); Call Fork (Ok 12);
              Call (Close 7) (Ok tt)])
       [A_err 4].
Proof.
  exact (@worker_error_stays_in_worker _ _ scripted scripted 3 7 (""%string, 9)
           [A_sock 3; A_ok; A_ok; A_ok; A_ok; A_ok; A_conn 7 (""%string, 9); A_pid 0;
            A_ok; A_bytes (b "GET /"); A_ok; A_err 104]
           [A_conn 7 (""%string, 9); A_pid 0; A_ok; A_bytes (b "GET /"); A_ok; A_err 104]
           [A_pid 0; A_ok; A_bytes (b "GET /"); A_ok; A_err 104]
           [A_ok; A_bytes (b "GET /"); A_ok; A_err 104]
           6 (startup_trace 3)
           [A_sock 3; A_ok; A_ok; A_ok; A_ok; A_ok; A_conn 7 (""%string, 9); A_pid 12;
            A_ok; A_err 4]
           [A_conn 7 (""%string, 9); A_pid 12; A_ok; A_err 4]
           [A_pid 12; A_ok; A_err 4]
           [A_ok; A_err 4]
           6 (startup_trace 3) 12
           (started_at_accept_loop scripted _ _ _ (scripted_started 3 _))
           eq_refl eq_refl
           (started_at_accept_loop scripted _ _ _ (scripted_started 3 _))
           eq_refl eq_refl ltac:(discriminate)).
Defined.

(** ** The Listener's calls *)

Lemma listener_call_not_io (listen_socket : sock) (en : entry) :
  listener_call listen_socket en -> is_io en = false.
Proof.
  destruct en as [X e x]. destruct e; cbn; intros H; try reflexivity; contradiction.
Qed.

(** C8. A Listener is a process in which [fork] never returns 0; [accept]
    hands it sockets other than the listening one.  Once the start-up is
    through, every call it makes, however long it runs, is an [accept] on the
    listening socket, a [fork], or the [close] of another socket: it never
    reads or writes, and never closes or reconfigures the listening socket.
    At every turn of the loop in which [accept] and [fork] succeed, its one
    call after [fork] is the [close] of the connection just accepted, after
    which it is at the top of the loop again. *)
Theorem listener_only_closes_connection
    {W : Type} (sys : forall X, sysE X -> W -> X * W)
    (w0 : W) (listen_socket : sock) (w : W) :
  started sys w0 listen_socket w ->
  (forall v, fst (sys _ Fork v) <> Ok 0) ->
  (forall v conn addr,
      fst (sys _ (Accept listen_socket) v) = Ok (conn, addr) ->
      conn <> listen_socket) ->
  (forall fuel,
      exists tr,
        trace_of sys (6 + fuel) main w0 = startup_trace listen_socket ++ tr
        /\ Forall (listener_call listen_socket) tr
        /\ Forall (fun en => is_io en = false) tr)
  /\ (forall n tr v v1 v2 conn addr pid,
        at_accept_loop sys w0 listen_socket n tr v ->
        sys _ (Accept listen_socket) v = (Ok (conn, addr), v1) ->
        sys _ Fork v1 = (Ok pid, v2) ->
        match fst (sys _ (Close conn) v2) with
        | Ok _ =>
            at_accept_loop sys w0 listen_socket (n + 4)
              (tr ++ [Call (Accept listen_socket) (Ok (conn, addr));
                      Call Fork (Ok pid); Call (Close conn) (Ok tt)])
              (snd (sys _ (Close conn) v2))
        | Err e =>
            forall fuel, (n + 4 <= fuel)%nat ->
              run sys fuel main w0 =
              (tr ++ [Call (Accept listen_socket) (Ok (conn, addr));
                      Call Fork (Ok pid); Call (Close conn) (Err e)],
               snd (sys _ (Close conn) v2), Some (Raised e))
        end).
Proof.
  intros Hstarted Hparent Hfresh.
  pose proof (started_at_accept_loop sys _ _ _ Hstarted) as Hat.
  split.
  - intros fuel. unfold trace_of, run. rewrite Hat.
    pose proof (loop_listener_calls sys listen_socket fuel w Hparent Hfresh) as Hloop.
    destruct (exec sys fuel (while_True (serve_iteration listen_socket)) w)
      as [[tr2 w2] o].
    cbn [fst after] in *. exists tr2.
    split; [reflexivity|]. split; [exact Hloop|].
    apply (Forall_impl _ (listener_call_not_io listen_socket) Hloop).
  - intros n tr v v1 v2 conn addr pid Hatn Hacc Hfork.
    assert (pid <> 0) as Hpid.
    { intros ->. apply (Hparent v1). now rewrite Hfork. }
    exact (listener_main_run sys _ _ _ _ _ _ _ _ _ _ Hatn Hacc Hfork Hpid).
Qed.

Lemma steady_started : started steady 0 3 6.
Proof.
  unfold started. exists 1, 2, 3, 4, 5. repeat split.
Qed.

Lemma listener_only_closes_connection_witness :
  exists tr,
    trace_of steady (6 + 9) main 0 = startup_trace 3 ++ tr
    /\ Forall (listener_call 3) tr
    /\ Forall (fun en => is_io en = false) tr.
Proof.
  refine (proj1
    (@listener_only_closes_connection _ steady 0 3 6 steady_started _ _) 9%nat).
  - intros v H. cbn in H. injection H as H. lia.
  - intros v conn addr H. cbn in H. injection H as H _. lia.
Defined.

(** ** Start-up *)

(** C9. [serve_forever] begins by creating a TCP socket
    ([AF_INET], [SOCK_STREAM]), then sets [SO_REUSEADDR] to 1 on it, binds it
    to host [""] and port 8888, and listens with backlog 1024, in this order.
    When [bind] fails, or [listen] fails, the exception ends [main] at that
    call: the process exits with status 1 and no [accept] was made. *)
Theorem startup_sequence
    {W : Type} (sys : forall X, sysE X -> W -> X * W)
    (w0 w1 w2 : W) (listen_socket : sock) (fuel : nat) :
  sys _ (Socket socket.AF_INET socket.SOCK_STREAM) w0 = (Ok listen_socket, w1) ->
  sys _ (Setsockopt listen_socket socket.SOL_SOCKET socket.SO_REUSEADDR 1) w1
    = (Ok tt, w2) ->
  (5 <= fuel)%nat ->
  let (rb, w3) := sys _ (Bind listen_socket (""%string, 8888)) w2 in
  match rb with
  | Err e =>
      run sys fuel main w0 =
        ([Call (Socket socket.AF_INET socket.SOCK_STREAM) (Ok listen_socket);
          Call (Setsockopt listen_socket socket.SOL_SOCKET socket.SO_REUSEADDR 1)
            (Ok tt);
          Call (Bind listen_socket (""%string, 8888)) (Err e)],
         w3, Some (Raised e))
      /\ exit_status (Raised e : outcome unit) = 1
  | Ok _ =>
      let (rl, w4) := sys _ (Listen listen_socket 1024) w3 in
      match rl with
      | Err e =>
          run sys fuel main w0 =
            ([Call (Socket socket.AF_INET socket.SOCK_STREAM) (Ok listen_socket);
              Call (Setsockopt listen_socket socket.SOL_SOCKET
                      socket.SO_REUSEADDR 1) (Ok tt);
              Call (Bind listen_socket (""%string, 8888)) (Ok tt);
              Call (Listen listen_socket 1024) (Err e)],
             w4, Some (Raised e))
          /\ exit_status (Raised e : outcome unit) = 1
      | Ok _ =>
          exists rest,
            trace_of sys fuel main w0 =
              [Call (Socket socket.AF_INET socket.SOCK_STREAM) (Ok listen_socket);
               Call (Setsockopt listen_socket socket.SOL_SOCKET
                       socket.SO_REUSEADDR 1) (Ok tt);
               Call (Bind listen_socket (""%string, 8888)) (Ok tt);
               Call (Listen listen_socket 1024) (Ok tt)]
              ++ rest
      end
  end.
Proof.
  intros Hsock Hopt Hfuel.
  destruct (sys _ (Bind listen_socket (""%string, 8888)) w2)
    as [[[]|e] w3] eqn:Hbind.
  2:{ split; [|reflexivity].
      apply run_more_fuel with (n := 4%nat); [|lia].
      apply run_of_exec with (rest := 0%nat).
      unfold main, serve_forever, socket.socket, socket.setsockopt, socket.bind.
      do 2 exec_step. rewrite Hsock. cbn [fst snd after].
      do 2 exec_step. rewrite Hopt. cbn [fst snd after].
      do 2 exec_step. unfold HOST, PORT. rewrite Hbind. reflexivity. }
  destruct (sys _ (Listen listen_socket 1024) w3) as [[[]|e] w4] eqn:Hlisten.
  2:{ split; [|reflexivity].
      apply run_more_fuel with (n := 5%nat); [|lia].
      apply run_of_exec with (rest := 0%nat).
      unfold main, serve_forever, socket.socket, socket.setsockopt, socket.bind,
        socket.listen.
      do 2 exec_step. rewrite Hsock. cbn [fst snd after].
      do 2 exec_step. rewrite Hopt. cbn [fst snd after].
      do 2 exec_step. unfold HOST, PORT. rewrite Hbind. cbn [fst snd after].
      do 2 exec_step. unfold REQUEST_QUEUE_SIZE. rewrite Hlisten. reflexivity. }
  replace fuel with (5 + (fuel - 5))%nat by lia.
  unfold trace_of, run, main, serve_forever, socket.socket, socket.setsockopt,
    socket.bind, socket.listen.
  do 2 exec_step. rewrite Hsock. cbn [fst snd after].
  do 2 exec_step. rewrite Hopt. cbn [fst snd after].
  do 2 exec_step. unfold HOST, PORT. rewrite Hbind. cbn [fst snd after].
  do 2 exec_step. unfold REQUEST_QUEUE_SIZE. rewrite Hlisten. cbn [fst snd after].
  match goal with
  | |- context [exec sys ?f ?t w4] => destruct (exec sys f t w4) as [[tr' w'] o]
  end.
  exists tr'. reflexivity.
Qed.

Lemma startup_sequence_witness :
  run scripted 5 main [A_sock 3; A_ok; A_err 98; A_ok] =
    ([Call (Socket socket.AF_INET socket.SOCK_STREAM) (Ok 3);
      Call (Setsockopt 3 socket.SOL_SOCKET socket.SO_REUSEADDR 1) (Ok tt);
      Call (Bind 3 (""%string, 8888)) (Err (mkOSError errno.EADDRINUSE))],
     [A_ok], Some (Raised (mkOSError errno.EADDRINUSE))).
Proof.
  exact (proj1
    (@startup_sequence _ scripted [A_sock 3; A_ok; A_err 98; A_ok]
       [A_ok; A_err 98; A_ok] [A_err 98; A_ok] 3 5
       eq_refl eq_refl (le_n 5))).
Defined.

(** ** [reap_children] *)

Section ReapChildren.

Context {W : Type} (sys : forall X, sysE X -> W -> X * W).

Lemma exec_reap_children signum fr fuel w :
  exec sys (2 + fuel) (reap_children signum fr) w =
  let (r, w1) := sys _ (Waitpid (-1) os.WNOHANG) w in
  if ends_reaping r
  then ([Call (Waitpid (-1) os.WNOHANG) r], w1, Some (Returned tt, fuel))
  else after [Call (Waitpid (-1) os.WNOHANG) r]
         (exec sys fuel (reap_children signum fr) w1).
Proof.
  unfold reap_children at 1. rewrite exec_while_True.
  unfold os.waitpid. do 3 exec_step.
  destruct (sys _ (Waitpid (-1) os.WNOHANG) w) as [[[pid st]|e] w1];
    cbn [fst snd after ends_reaping].
  - destruct (pid =? 0); unfold break, ret; exec_step; reflexivity.
  - unfold break. exec_step. reflexivity.
Qed.

Lemma run_reap_children_checks signum fr k w :
  run sys (2 * k) (reap_children signum fr) w =
  let '(tr, w', done) := checks sys k w in
  (tr, w', if done then Some (Returned tt) else None).
Proof.
  revert w. induction k as [|k IH]; intros w; [reflexivity|].
  replace (2 * S k)%nat with (2 + 2 * k)%nat by lia.
  unfold run in *. rewrite exec_reap_children. cbn [checks].
  destruct (sys _ (Waitpid (-1) os.WNOHANG) w) as [r w1].
  destruct (ends_reaping r); [reflexivity|].
  specialize (IH w1).
  destruct (exec sys (2 * k) (reap_children signum fr) w1) as [[tr w2] o].
  destruct (checks sys k w1) as [[tr' w2'] done].
  cbn [after app]. injection IH as -> -> ->. reflexivity.
Qed.

Lemma checks_nohang k w :
  forallb is_nohang_check (fst (fst (checks sys k w))) = true.
Proof.
  revert w. induction k as [|k IH]; intros w; [reflexivity|].
  cbn [checks]. destruct (sys _ (Waitpid (-1) os.WNOHANG) w) as [r w1].
  destruct (ends_reaping r); [reflexivity|].
  specialize (IH w1). destruct (checks sys k w1) as [[tr w2] done].
  cbn [fst] in *. cbn [forallb]. now rewrite IH.
Qed.

End ReapChildren.

Lemma collect_none table :
  collect table = None -> all_running table = true.
Proof.
  induction table as [|c rest IH]; [reflexivity|].
  cbn [collect all_running forallb]. destruct (terminated c); [discriminate|].
  destruct (collect rest) as [[z rest']|]; [discriminate|].
  intros _. now apply IH.
Qed.

Lemma collect_some table z rest :
  collect table = Some (z, rest) ->
  terminated z = true /\ List.length table = S (List.length rest).
Proof.
  revert z rest. induction table as [|c tl IH]; intros z rest; [discriminate|].
  cbn [collect]. destruct (terminated c) eqn:Hc.
  - intros H. injection H as <- <-. auto.
  - destruct (collect tl) as [[z' rest']|]; [|discriminate].
    intros H. injection H as <- <-.
    destruct (IH z' rest' eq_refl) as [Hz Hlen]. cbn [List.length]. auto.
Qed.

(** Against the kernel the reaping ends, within one check more than there are
    children, and leaves no terminated child in the table. *)
Lemma checks_kernel k table :
  (List.length table < k)%nat ->
  exists tr table',
    checks kernel k table = (tr, table', true)
    /\ all_running table' = true
    /\ (List.length tr <= S (List.length table))%nat.
Proof.
  revert table. induction k as [|k IH]; intros table Hlen; [lia|].
  cbn [checks kernel]. rewrite !Z.eqb_refl. cbn [andb].
  destruct table as [|c tl].
  - cbn [map wait_nohang ends_reaping]. do 2 eexists. repeat split. cbn. lia.
  - cbn [wait_nohang map].
    destruct (collect (tick c :: map tick tl)) as [[z rest]|] eqn:Hcol.
    + apply collect_some in Hcol. destruct Hcol as [_ Hl].
      cbn [List.length] in Hl. rewrite length_map in Hl.
      cbn [ends_reaping Z.eqb].
      destruct (IH rest) as (tr & table' & Hck & Hrun & Htr).
      { cbn [List.length] in Hlen. lia. }
      rewrite Hck. do 2 eexists. repeat split; [exact Hrun|].
      cbn [List.length] in *. lia.
    + cbn [ends_reaping Z.eqb]. do 2 eexists. repeat split.
      * now apply collect_none.
      * cbn. lia.
Qed.

(** C4. One invocation of [reap_children], under any system: its run is the
    sequence of checks [waitpid(-1, WNOHANG)] up to and including the first
    one that returns pid 0 or raises [OSError], where it returns; every call
    it makes is that non-blocking check; it never ends with an exception.
    Against a kernel that answers the check as POSIX defines it, the
    invocation ends after at most one check more than there are children and
    leaves no terminated child unreaped, also when children terminate while
    it runs. *)
Theorem reap_children_drains_without_blocking
    {W : Type} (sys : forall X, sysE X -> W -> X * W) (signum : Z) (fr : frame) :
  (forall k w,
      run sys (2 * k) (reap_children signum fr) w =
      let '(tr, w', done) := checks sys k w in
      (tr, w', if done then Some (Returned tt) else None))
  /\ (forall fuel w,
        forallb is_nohang_check (trace_of sys fuel (reap_children signum fr) w) = true)
  /\ (forall fuel w o,
        result_of sys fuel (reap_children signum fr) w = Some o -> o = Returned tt)
  /\ (forall table,
        exists tr table',
          run kernel (2 * S (List.length table)) (reap_children signum fr) table =
            (tr, table', Some (Returned tt))
          /\ all_running table' = true
          /\ (List.length tr <= S (List.length table))%nat).
Proof.
  split; [|split; [|split]].
  - intros k w. apply run_reap_children_checks.
  - intros fuel w.
    destruct (exec_trace_prefix sys (reap_children signum fr) fuel fuel w)
      as [tr' Hpre].
    pose proof (run_reap_children_checks sys signum fr fuel w) as Hrun.
    pose proof (checks_nohang sys fuel w) as Hck.
    replace (2 * fuel)%nat with (fuel + fuel)%nat in Hrun by lia.
    unfold trace_of, run in *.
    destruct (exec sys (fuel + fuel) (reap_children signum fr) w) as [[tr1 w1] o1].
    destruct (exec sys fuel (reap_children signum fr) w) as [[tr0 w0] o0].
    destruct (checks sys fuel w) as [[tr2 w2] done].
    cbn [fst] in *. injection Hrun as -> _ _. subst tr2.
    rewrite forallb_app in Hck. now apply andb_true_iff in Hck.
  - intros fuel w o Hres.
    pose proof (run_reap_children_checks sys signum fr fuel w) as Hrun.
    unfold result_of in Hres.
    destruct (run sys fuel (reap_children signum fr) w) as [[tr w'] o'] eqn:E.
    cbn [snd] in Hres. subst o'.
    rewrite (run_more_fuel sys _ fuel (2 * fuel) _ _ _ _ E) in Hrun by lia.
    destruct (checks sys fuel w) as [[tr2 w2] [|]]; [|discriminate].
    now injection Hrun as _ _ ->.
  - intros table.
    destruct (checks_kernel (S (List.length table)) table) as (tr & table' & Hck & Hrun & Hlen);
      [lia|].
    exists tr, table'. split; [|split; assumption].
    now rewrite run_reap_children_checks, Hck.
Qed.

Lemma reap_children_drains_without_blocking_witness :
  exists tr table',
    run kernel (2 * 4) (reap_children signal.SIGCHLD tt)
      [mkChild 101 0 0; mkChild 102 5 0; mkChild 103 2 1] =
      (tr, table', Some (Returned tt))
    /\ all_running table' = true
    /\ (List.length tr <= 4)%nat.
Proof.
  exact (proj2 (proj2 (proj2
    (@reap_children_drains_without_blocking _ kernel signal.SIGCHLD tt)))
    [mkChild 101 0 0; mkChild 102 5 0; mkChild 103 2 1]).
Defined.

(** ** The program on concrete inputs *)

(** Two children have terminated by the second check, one is still running:
    three checks, two reaped, the third answers pid 0. *)
Example reap_two_of_three :
  run kernel 6 (reap_children signal.SIGCHLD tt)
    [mkChild 101 0 0; mkChild 102 5 0; mkChild 103 2 1] =
  ([Call (Waitpid (-1) os.WNOHANG) (Ok (101, 0));
    Call (Waitpid (-1) os.WNOHANG) (Ok (103, 256));
    Call (Waitpid (-1) os.WNOHANG) (Ok (0, 0))],
   [mkChild 102 2 0], Some (Returned tt)).
Proof. reflexivity. Qed.

(** Without children the first check raises [ECHILD], which is caught. *)
Example reap_without_children :
  run kernel 2 (reap_children signal.SIGCHLD tt) [] =
  ([Call (Waitpid (-1) os.WNOHANG) (Err (mkOSError errno.ECHILD))],
   [], Some (Returned tt)).
Proof. reflexivity. Qed.

(** A worker that serves one request and leaves. *)
Example worker_serves_one_request :
  run scripted 14 main
    [A_sock 3; A_ok; A_ok; A_ok; A_ok; A_ok; A_conn 7 ("10.0.0.2"%string, 40000);
     A_pid 0; A_ok; A_bytes (b "GET / HTTP/1.1"); A_ok; A_ok; A_ok] =
  (startup_trace 3
     ++ [Call (Accept 3) (Ok (7, ("10.0.0.2"%string, 40000)));
         Call Fork (Ok 0)]
     ++ worker_trace 3 7 (b "GET / HTTP/1.1"),
   [], Some (Exited 0)).
Proof. reflexivity. Qed.

(** A Listener that is interrupted once, serves one connection and is then
    ended by a failing [accept]. *)
Example listener_interrupted_then_serving :
  run scripted 20 main
    [A_sock 3; A_ok; A_ok; A_ok; A_ok; A_ok; A_err 4;
     A_conn 7 ("10.0.0.2"%string, 40000); A_pid 4242; A_ok; A_err 24] =
  (startup_trace 3
     ++ [Call (Accept 3) (Err (mkOSError errno.EINTR));
         Call (Accept 3) (Ok (7, ("10.0.0.2"%string, 40000)));
         Call Fork (Ok 4242);
         Call (Close 7) (Ok tt);
         Call (Accept 3) (Err (mkOSError errno.EMFILE))],
   [], Some (Raised (mkOSError errno.EMFILE))).
Proof. reflexivity. Qed.

(** * Further properties of the code *)

(** ** [handle_request]: what it touches and how it fails *)

Section HandleRequestFrame.

Context {W : Type} (sys : forall X, sysE X -> W -> X * W).

(** A run that is cut short makes a beginning of the calls of the full run. *)
Lemma trace_of_prefix {R} (t : itree sysE R) n k w :
  exists tr', trace_of sys (n + k) t w = trace_of sys n t w ++ tr'.
Proof.
  destruct (exec_trace_prefix sys t n k w) as [tr' Hpre].
  exists tr'. unfold trace_of, run.
  destruct (exec sys (n + k) t w) as [[tr1 w1] o1].
  destruct (exec sys n t w) as [[tr0 w0] o0]. exact Hpre.
Qed.

(** The calls of a full run of [handle_request]. *)
Lemma handle_request_full_trace conn fuel w :
  Forall (handler_call conn) (trace_of sys (4 + fuel) (handle_request conn) w)
  /\ (reads (trace_of sys (4 + fuel) (handle_request conn) w) <= 1)%nat
  /\ (List.length (sent (trace_of sys (4 + fuel) (handle_request conn) w)) <= 1)%nat.
Proof.
  unfold trace_of, run. rewrite exec_handle_request.
  destruct (sys _ (Recv conn BUFFER_SIZE) w) as [[request|e] w1].
  - destruct (truth request).
    + destruct (sys _ (Print (decode_ignore request)) w1) as [[[]|e] w2].
      * destruct (sys _ (Sendall conn response) w2) as [r w3].
        cbn. repeat constructor; auto.
      * cbn. repeat constructor; auto.
    + cbn. repeat constructor; auto.
  - cbn. repeat constructor; auto.
Qed.

Lemma reads_app tr1 tr2 : reads (tr1 ++ tr2) = (reads tr1 + reads tr2)%nat.
Proof. unfold reads. now rewrite filter_app, length_app. Qed.

Lemma sent_app tr1 tr2 : sent (tr1 ++ tr2) = sent tr1 ++ sent tr2.
Proof. unfold sent. now rewrite flat_map_app. Qed.

End HandleRequestFrame.

(** X1. Whatever the system answers and however long it runs,
    [handle_request] calls nothing but the read of at most [BUFFER_SIZE] bytes
    on its connection, the [print] of the log line, and [sendall] of the
    response on its connection; it reads at most once and writes at most
    once, and it touches no other socket, nor closes its own. *)
Theorem handle_request_touches_only_its_connection
    {W : Type} (sys : forall X, sysE X -> W -> X * W)
    (conn : sock) (fuel : nat) (w : W) :
  Forall (handler_call conn) (trace_of sys fuel (handle_request conn) w)
  /\ (reads (trace_of sys fuel (handle_request conn) w) <= 1)%nat
  /\ (List.length (sent (trace_of sys fuel (handle_request conn) w)) <= 1)%nat.
Proof.
  destruct (trace_of_prefix sys (handle_request conn) fuel 4 w) as [tr' Hpre].
  destruct (handle_request_full_trace sys conn fuel w) as (Hall & Hreads & Hsent).
  replace (4 + fuel)%nat with (fuel + 4)%nat in * by lia.
  rewrite Hpre in Hall, Hreads, Hsent.
  apply Forall_app in Hall. rewrite reads_app in Hreads.
  rewrite sent_app, length_app in Hsent.
  repeat split; [tauto|lia|lia].
Qed.

(** X2. When the read fails, [handle_request] raises that error at once:
    the read is its only call, nothing is logged and nothing is written. *)
Theorem handle_request_read_error_is_raised
    {W : Type} (sys : forall X, sysE X -> W -> X * W)
    (conn : sock) (e : OSError) (w w1 : W) (fuel : nat) :
  sys _ (Recv conn BUFFER_SIZE) w = (Err e, w1) ->
  (2 <= fuel)%nat ->
  run sys fuel (handle_request conn) w =
    ([Call (Recv conn BUFFER_SIZE) (Err e)], w1, Some (Raised e)).
Proof.
  intros Hrecv Hfuel.
  apply run_more_fuel with (n := 2%nat); [|exact Hfuel].
  unfold run, handle_request, socket.recv.
  do 2 exec_step. rewrite Hrecv. reflexivity.
Qed.

Lemma handle_request_read_error_is_raised_witness :
  run scripted 2 (handle_request 5) [A_err 104; A_ok] =
    ([Call (Recv 5 BUFFER_SIZE) (Err (mkOSError errno.ECONNRESET))],
     [A_ok], Some (Raised (mkOSError errno.ECONNRESET))).
Proof.
  exact (@handle_request_read_error_is_raised _ scripted 5
           (mkOSError errno.ECONNRESET) [A_err 104; A_ok] [A_ok] 2
           eq_refl (le_n 2)).
Defined.

(** X3. The request is logged before it is answered, and nothing guards the
    log line: when the read returns bytes and the [print] of them fails,
    [handle_request] raises that error and the response is never sent. *)
Theorem handle_request_log_failure_suppresses_response
    {W : Type} (sys : forall X, sysE X -> W -> X * W)
    (conn : sock) (request : bytes) (e : OSError) (w w1 w2 : W) (fuel : nat) :
  sys _ (Recv conn BUFFER_SIZE) w = (Ok request, w1) ->
  request <> [] ->
  sys _ (Print (decode_ignore request)) w1 = (Err e, w2) ->
  (3 <= fuel)%nat ->
  run sys fuel (handle_request conn) w =
    ([Call (Recv conn BUFFER_SIZE) (Ok request);
      Call (Print (decode_ignore request)) (Err e)],
     w2, Some (Raised e))
  /\ sent (trace_of sys fuel (handle_request conn) w) = [].
Proof.
  intros Hrecv Hne Hprint Hfuel.
  assert (run sys fuel (handle_request conn) w =
            ([Call (Recv conn BUFFER_SIZE) (Ok request);
              Call (Print (decode_ignore request)) (Err e)],
             w2, Some (Raised e))) as Hrun.
  { apply run_more_fuel with (n := 3%nat); [|exact Hfuel].
    unfold run, handle_request, socket.recv, print.
    do 2 exec_step. rewrite Hrecv. cbn [fst snd after].
    destruct request as [|x request]; [congruence|]. cbn [truth negb].
    do 2 exec_step. rewrite Hprint. reflexivity. }
  split; [exact Hrun|]. unfold trace_of. now rewrite Hrun.
Qed.

Lemma handle_request_log_failure_suppresses_response_witness :
  sent (trace_of scripted 3 (handle_request 5)
          [A_bytes (b "GET /"); A_err 32; A_ok]) = [].
Proof.
  exact (proj2 (@handle_request_log_failure_suppresses_response _ scripted 5
           (b "GET /") (mkOSError 32)
           [A_bytes (b "GET /"); A_err 32; A_ok] [A_err 32; A_ok] [A_ok] 3
           eq_refl ltac:(discriminate) eq_refl (le_n 3))).
Defined.

(** ** Start-up as a whole *)

Section StartupCases.

Context {W : Type} (sys : forall X, sysE X -> W -> X * W).

(** Either the six calls of the start-up succeed, or [main] ends with the
    error of the first that fails. *)
Lemma startup_cases w0 :
  (exists listen_socket w, started sys w0 listen_socket w)
  \/ (exists tr w' e rest,
        exec sys 7 main w0 = (tr, w', Some (Raised e, rest))
        /\ (List.length tr <= 6)%nat
        /\ Forall (fun en => is_accept en = false /\ is_fork en = false) tr
        /\ exists pre X (c : sysE (result X)),
             tr = pre ++ [Call c (Err e)] /\ all_succeeded pre = true).
Proof.
  unfold started, main, serve_forever, socket.socket, socket.setsockopt,
    socket.bind, socket.listen, print, signal.signal.
  change (format_int PORT) with "8888"%string. cbn [String.append].
  destruct (sys _ (Socket socket.AF_INET socket.SOCK_STREAM) w0)
    as [[listen_socket|e] w1] eqn:H1.
  2:{ right. do 2 exec_step. rewrite H1. cbn [fst snd after].
      do 4 eexists. split; [reflexivity|]. split; [cbn; lia|].
      split; [repeat constructor|]. eexists [], _, _. split; reflexivity. }
  destruct (sys _ (Setsockopt listen_socket socket.SOL_SOCKET socket.SO_REUSEADDR 1) w1)
    as [[[]|e] w2] eqn:H2.
  2:{ right. do 2 exec_step. rewrite H1. cbn [fst snd after].
      do 2 exec_step. rewrite H2. cbn [fst snd after].
      do 4 eexists. split; [reflexivity|]. split; [cbn; lia|].
      split; [repeat constructor|].
      eexists [_], _, _. split; reflexivity. }
  destruct (sys _ (Bind listen_socket (HOST, PORT)) w2) as [[[]|e] w3] eqn:H3.
  2:{ right. do 2 exec_step. rewrite H1. cbn [fst snd after].
      do 2 exec_step. rewrite H2. cbn [fst snd after].
      do 2 exec_step. rewrite H3. cbn [fst snd after].
      do 4 eexists. split; [reflexivity|]. split; [cbn; lia|].
      split; [repeat constructor|].
      eexists [_; _], _, _. split; reflexivity. }
  destruct (sys _ (Listen listen_socket REQUEST_QUEUE_SIZE) w3)
    as [[[]|e] w4] eqn:H4.
  2:{ right. do 2 exec_step. rewrite H1. cbn [fst snd after].
      do 2 exec_step. rewrite H2. cbn [fst snd after].
      do 2 exec_step. rewrite H3. cbn [fst snd after].
      do 2 exec_step. rewrite H4. cbn [fst snd after].
      do 4 eexists. split; [reflexivity|]. split; [cbn; lia|].
      split; [repeat constructor|].
      eexists [_; _; _], _, _. split; reflexivity. }
  destruct (sys _ (Print (Text "Serving HTTP on port 8888 ...")) w4)
    as [[[]|e] w5] eqn:H5.
  2:{ right. do 2 exec_step. rewrite H1. cbn [fst snd after].
      do 2 exec_step. rewrite H2. cbn [fst snd after].
      do 2 exec_step. rewrite H3. cbn [fst snd after].
      do 2 exec_step. rewrite H4. cbn [fst snd after].
      do 2 exec_step. rewrite H5. cbn [fst snd after].
      do 4 eexists. split; [reflexivity|]. split; [cbn; lia|].
      split; [repeat constructor|].
      eexists [_; _; _; _], _, _. split; reflexivity. }
  destruct (sys _ (Signal signal.SIGCHLD fn_reap_children) w5)
    as [[[]|e] w6] eqn:H6.
  2:{ right. do 2 exec_step. rewrite H1. cbn [fst snd after].
      do 2 exec_step. rewrite H2. cbn [fst snd after].
      do 2 exec_step. rewrite H3. cbn [fst snd after].
      do 2 exec_step. rewrite H4. cbn [fst snd after].
      do 2 exec_step. rewrite H5. cbn [fst snd after].
      do 2 exec_step. rewrite H6. cbn [fst snd after].
      do 4 eexists. split; [reflexivity|]. split; [cbn; lia|].
      split; [repeat constructor|].
      eexists [_; _; _; _; _], _, _. split; reflexivity. }
  left. exists listen_socket, w6, w1, w2, w3, w4, w5. repeat split; assumption.
Qed.

(** One turn of the accept loop always comes to an end, in one of five
    ways. *)
Lemma iteration_ends listen_socket fuel w :
  exists tr w1 o rest,
    exec sys (8 + fuel) (serve_iteration listen_socket) w = (tr, w1, Some (o, rest))
    /\ iteration_run listen_socket tr o.
Proof.
  destruct (sys _ (Accept listen_socket) w) as [[[conn addr]|e] w1] eqn:Hacc.
  - destruct (sys _ Fork w1) as [[pid|e] w2] eqn:Hfork.
    + destruct (Z.eq_dec pid 0) as [->|Hpid].
      * destruct (exec_iteration_child sys _ _ _ _ _ _ fuel Hacc Hfork)
          as (tr & w' & o & rest & Hexec & Hrun & _).
        exists (Call (Accept listen_socket) (Ok (conn, addr)) :: Call Fork (Ok 0) :: tr),
          w', o, rest.
        split; [exact Hexec|]. now constructor.
      * change (8 + fuel)%nat with (4 + (4 + fuel))%nat.
        rewrite (exec_iteration_parent sys _ _ _ _ _ _ _ _ Hacc Hfork Hpid).
        do 4 eexists. split; [reflexivity|]. now constructor.
    + change (8 + fuel)%nat with (3 + (5 + fuel))%nat.
      rewrite (exec_iteration_fork_fails sys _ _ _ _ _ _ _ _ Hacc Hfork).
      do 4 eexists. split; [reflexivity|]. constructor.
  - change (8 + fuel)%nat with (2 + (6 + fuel))%nat.
    destruct (Z.eq_dec (errno e) errno.EINTR) as [Herr|Herr].
    + rewrite (exec_iteration_eintr sys _ _ _ _ _ Hacc Herr).
      do 4 eexists. split; [reflexivity|]. now constructor.
    + rewrite (exec_iteration_accept_fails sys _ _ _ _ _ Hacc Herr).
      do 4 eexists. split; [reflexivity|]. now constructor.
Qed.

End StartupCases.


(** A list that reaches an element beyond a stretch free of such elements
    begins with that stretch. *)
Lemma reaches_past {A} (P : A -> Prop) (s r l1 l2 : list A) (x : A) :
  l1 ++ x :: l2 = s ++ r ->
  Forall (fun a => ~ P a) s ->
  P x ->
  exists m, l1 = s ++ m.
Proof.
  revert l1. induction s as [|a s IH]; intros l1 Heq Hs Hx.
  - exists l1. reflexivity.
  - inversion Hs as [|? ? Ha Hs']; subst.
    destruct l1 as [|a' l1]; cbn in Heq; injection Heq as Hhd Htl.
    + subst. contradiction.
    + subst a'. destruct (IH l1 Htl Hs' Hx) as [m ->]. exists m. reflexivity.
Qed.

(** X5. The handler for [SIGCHLD], which is [reap_children], is installed
    before the first connection is accepted and before the first child is
    forked: in every run of [main], any [accept] or [fork] comes after the
    successful [signal] call. *)
Theorem reaper_installed_before_first_accept
    {W : Type} (sys : forall X, sysE X -> W -> X * W)
    (w0 : W) (fuel : nat) (pre post : list entry) (en : entry) :
  trace_of sys fuel main w0 = pre ++ en :: post ->
  is_accept en = true \/ is_fork en = true ->
  In (Call (Signal signal.SIGCHLD fn_reap_children) (Ok tt)) pre
  /\ callback_body fn_reap_children = reap_children.
Proof.
  intros Htr Hen. split; [|reflexivity].
  destruct (trace_of_prefix sys main fuel 7 w0) as [tr' Hpre].
  rewrite Htr, <- app_assoc in Hpre. cbn [app] in Hpre.
  destruct (startup_cases sys w0)
    as [(listen_socket & w & Hst)|(tr & w' & e & rest & Hexec & Hlen & Hall & Hlast)].
  - pose proof (started_at_accept_loop sys _ _ _ Hst (S fuel)) as Hat.
    replace (6 + S fuel)%nat with (fuel + 7)%nat in Hat by lia.
    unfold trace_of, run in Hpre. rewrite Hat in Hpre.
    destruct (exec sys (S fuel) (while_True (serve_iteration listen_socket)) w)
      as [[tr2 w2] o].
    cbn [after fst] in Hpre. symmetry in Hpre.
    destruct (reaches_past
                (fun en => is_accept en = true \/ is_fork en = true)
                _ _ _ _ _ Hpre) as [m ->].
    + repeat constructor; cbn; intros [H|H]; discriminate.
    + exact Hen.
    + apply in_or_app. left. cbn. auto 10.
  - apply (exec_more_fuel sys _ _ fuel) in Hexec.
    replace (7 + fuel)%nat with (fuel + 7)%nat in Hexec by lia.
    unfold trace_of, run in Hpre. rewrite Hexec in Hpre. cbn [fst] in Hpre.
    rewrite Hpre in Hall. apply Forall_app in Hall. destruct Hall as [_ Hall].
    inversion Hall as [|? ? [Ha Hf] _]; subst.
    destruct Hen as [H|H]; congruence.
Qed.

Lemma reaper_installed_before_first_accept_witness :
  In (Call (Signal signal.SIGCHLD fn_reap_children) (Ok tt)) (startup_trace 3).
Proof.
  exact (proj1 (@reaper_installed_before_first_accept _ scripted
           [A_sock 3; A_ok; A_ok; A_ok; A_ok; A_ok; A_conn 7 (""%string, 9)]
           7 (startup_trace 3) [] (Call (Accept 3) (Ok (7, (""%string, 9))))
           eq_refl (or_introl eq_refl))).
Defined.

(** ** The accept loop over all its turns *)

Section LoopOutcomes.

Context {W : Type} (sys : forall X, sysE X -> W -> X * W).

(** A turn that has ended is one of the five. *)
Lemma iteration_ended listen_socket fuel w tr w1 o rest :
  exec sys fuel (serve_iteration listen_socket) w = (tr, w1, Some (o, rest)) ->
  iteration_run listen_socket tr o.
Proof.
  intros Hexec. apply (exec_more_fuel sys _ _ 8) in Hexec.
  destruct (iteration_ends sys listen_socket fuel w)
    as (tr' & w' & o' & rest' & Hfull & Hrun).
  replace (fuel + 8)%nat with (8 + fuel)%nat in Hexec by lia.
  rewrite Hfull in Hexec. injection Hexec as -> _ -> _. exact Hrun.
Qed.




End LoopOutcomes.



(** ** One fork for each accepted connection *)

Lemma pairing_app p tr1 tr2 :
  pairing p (tr1 ++ tr2) =
  match pairing p tr1 with
  | Some q => pairing q tr2
  | None => None
  end.
Proof.
  revert p. induction tr1 as [|en tr1 IH]; intros p; [reflexivity|].
  cbn [app pairing]. destruct (pair_step p en); [apply IH|reflexivity].
Qed.

(** A trace that begins a paired trace is paired. *)
Lemma pairing_prefix p tr1 tr2 q :
  pairing p (tr1 ++ tr2) = Some q -> exists q', pairing p tr1 = Some q'.
Proof.
  rewrite pairing_app. destruct (pairing p tr1) as [q'|]; [eauto|discriminate].
Qed.

(** Calls other than [accept] and [fork] do not touch the pairing. *)
Lemma pairing_neutral p tr :
  Forall (fun en => is_accept en = false /\ is_fork en = false) tr ->
  pairing p tr = Some p.
Proof.
  induction 1 as [|en tr [Ha Hf] _ IH]; [reflexivity|].
  cbn [pairing]. destruct en as [X e x].
  destruct e; cbn in Ha, Hf; try discriminate; cbn; exact IH.
Qed.

Lemma worker_run_neutral listen_socket conn tr o :
  worker_run listen_socket conn tr o ->
  Forall (fun en => is_accept en = false /\ is_fork en = false) tr.
Proof.
  intros [e|e|r|request e _|request e _|request r _]; repeat constructor.
Qed.

(** A whole turn of the loop leaves no connection waiting. *)
Lemma iteration_run_pairing listen_socket tr o :
  iteration_run listen_socket tr o -> pairing Idle tr = Some Idle.
Proof.
  intros [e _|e _|conn addr e|conn addr pid r _|conn addr tr' o' Hrun];
    try reflexivity.
  cbn. exact (pairing_neutral Idle _ (worker_run_neutral _ _ _ _ Hrun)).
Qed.

(** The counts behind a paired trace. *)
Lemma pairing_counts p tr q :
  pairing p tr = Some q ->
  (accepted tr + match p with Accepted => 1 | Idle => 0 end =
   forks tr + match q with Accepted => 1 | Idle => 0 end)%nat.
Proof.
  unfold accepted, forks. revert p.
  induction tr as [|en tr IH]; intros p.
  - cbn. intros H. injection H as <-. reflexivity.
  - cbn [pairing filter]. destruct en as [X e x].
    destruct e; try (cbn; intros H; apply IH in H; exact H).
    + destruct p, x as [a|err]; cbn; try discriminate;
        intros H; apply IH in H; cbn in H; lia.
    + destruct p; cbn; try discriminate.
      intros H; apply IH in H; cbn in H; lia.
Qed.

Section LoopPairing.

Context {W : Type} (sys : forall X, sysE X -> W -> X * W).

Lemma iteration_pairing listen_socket fuel w :
  exists q,
    pairing Idle (fst (fst (exec sys fuel (serve_iteration listen_socket) w)))
    = Some q.
Proof.
  destruct (exec_trace_prefix sys (serve_iteration listen_socket) fuel 8 w)
    as [tr' Hpre].
  destruct (iteration_ends sys listen_socket fuel w)
    as (tr & w1 & o & rest & Hfull & Hrun).
  replace (fuel + 8)%nat with (8 + fuel)%nat in Hpre by lia.
  rewrite Hfull in Hpre. cbn [fst] in Hpre.
  apply iteration_run_pairing in Hrun. rewrite Hpre in Hrun.
  exact (pairing_prefix _ _ _ _ Hrun).
Qed.

Lemma loop_pairing listen_socket fuel w :
  exists q,
    pairing Idle
      (fst (fst (exec sys fuel (while_True (serve_iteration listen_socket)) w)))
    = Some q.
Proof.
  revert w. induction fuel as [fuel IH] using lt_wf_ind. intros w.
  rewrite exec_while_True.
  destruct (iteration_pairing listen_socket fuel w) as [q Hq].
  destruct (exec sys fuel (serve_iteration listen_socket) w)
    as [[tr w1] [[o rest]|]] eqn:E; cbn [fst] in Hq; [|eauto].
  pose proof (iteration_run_pairing _ _ _ (iteration_ended sys _ _ _ _ _ _ _ E))
    as Hidle.
  apply exec_rest_lt in E.
  destruct o as [[]|e|c| |]; cbn [fst]; eauto.
  - destruct (IH rest E w1) as [q' Hq'].
    destruct (exec sys rest (while_True (serve_iteration listen_socket)) w1)
      as [[tr2 w2] o2].
    cbn [after fst] in *. exists q'. now rewrite pairing_app, Hidle.
  - destruct (IH rest E w1) as [q' Hq'].
    destruct (exec sys rest (while_True (serve_iteration listen_socket)) w1)
      as [[tr2 w2] o2].
    cbn [after fst] in *. exists q'. now rewrite pairing_app, Hidle.
Qed.

Lemma main_pairing w0 fuel :
  exists q, pairing Idle (trace_of sys fuel main w0) = Some q.
Proof.
  destruct (trace_of_prefix sys main fuel 7 w0) as [tr' Hpre].
  assert (exists q, pairing Idle (trace_of sys (fuel + 7) main w0) = Some q)
    as [q Hq].
  { destruct (startup_cases sys w0)
      as [(listen_socket & w & Hst)|(tr1 & w1 & e & rest & Hexec & _ & Hall & _)].
    - pose proof (started_at_accept_loop sys _ _ _ Hst (S fuel)) as Hat.
      replace (6 + S fuel)%nat with (fuel + 7)%nat in Hat by lia.
      unfold trace_of, run. rewrite Hat.
      destruct (loop_pairing listen_socket (S fuel) w) as [q Hq].
      destruct (exec sys (S fuel) (while_True (serve_iteration listen_socket)) w)
        as [[tr2 w2] o].
      cbn [after fst] in *. exists q. now rewrite pairing_app.
    - apply (exec_more_fuel sys _ _ fuel) in Hexec.
      replace (7 + fuel)%nat with (fuel + 7)%nat in Hexec by lia.
      unfold trace_of, run. rewrite Hexec. cbn [fst].
      exists Idle. now apply pairing_neutral. }
  rewrite Hpre in Hq. exact (pairing_prefix _ _ _ _ Hq).
Qed.

End LoopPairing.

(** X7. One process for each connection.  In every run of [main], under
    every system and at every moment, the accepts and forks pair up: a
    [fork] is made only for a connection that has just been accepted and has
    not been forked for, and no further [accept] is made while one waits.
    So the forks never outnumber the accepted connections, and at most one
    connection is without its fork. *)
Theorem one_fork_per_accepted_connection
    {W : Type} (sys : forall X, sysE X -> W -> X * W) (w0 : W) (fuel : nat) :
  (exists q, pairing Idle (trace_of sys fuel main w0) = Some q)
  /\ (forks (trace_of sys fuel main w0) <= accepted (trace_of sys fuel main w0))%nat
  /\ (accepted (trace_of sys fuel main w0) <= forks (trace_of sys fuel main w0) + 1)%nat.
Proof.
  destruct (main_pairing sys w0 fuel) as [q Hq].
  split; [eauto|].
  pose proof (pairing_counts _ _ _ Hq) as Hcount.
  destruct q; lia.
Qed.

(** ** The Listener over many turns *)

(** X8. Turns of the Listener compose.  From the top of the accept loop, any
    sequence of turns in which [accept] is interrupted and of turns in which a
    connection is accepted, forked for and closed brings [main] to the top of
    the loop again, having made exactly the calls of those turns: the
    Listener outlives any number of connections and interruptions. *)
Theorem listener_keeps_serving
    {W : Type} (sys : forall X, sysE X -> W -> X * W)
    (w0 : W) (listen_socket : sock) (n : nat) (tr : list entry) (w : W)
    (tr' : list entry) (k : nat) (w' : W) :
  at_accept_loop sys w0 listen_socket n tr w ->
  listens sys listen_socket w tr' k w' ->
  at_accept_loop sys w0 listen_socket (n + k) (tr ++ tr') w'
  /\ accepted tr' = forks tr'.
Proof.
  intros Hat Hl. revert n tr Hat.
  induction Hl as [w|w e w1 tr' k w' Hacc Herr Hl IH
                  |w conn addr w1 pid w2 w3 tr' k w' Hacc Hfork Hpid Hclose Hl IH];
    intros n tr Hat.
  - rewrite Nat.add_0_r, app_nil_r. split; [exact Hat|reflexivity].
  - destruct (IH _ _ (at_accept_loop_retry sys _ _ _ _ _ _ _ Hat Hacc Herr))
      as [Hat' Hcount].
    rewrite <- app_assoc in Hat'. cbn [app] in Hat'.
    replace (n + (2 + k))%nat with (n + 2 + k)%nat by lia.
    split; [exact Hat'|exact Hcount].
  - destruct (IH _ _ (at_accept_loop_parent sys _ _ _ _ _ _ _ _ _ _ _
                        Hat Hacc Hfork Hpid Hclose)) as [Hat' Hcount].
    rewrite <- app_assoc in Hat'. cbn [app] in Hat'.
    replace (n + (4 + k))%nat with (n + 4 + k)%nat by lia.
    split; [exact Hat'|].
    unfold accepted, forks in *. cbn. now rewrite Hcount.
Qed.

Lemma listener_keeps_serving_witness :
  at_accept_loop scripted
    [A_sock 3; A_ok; A_ok; A_ok; A_ok; A_ok;
     A_err 4; A_conn 7 (""%string, 9); A_pid 12; A_ok;
     A_conn 8 (""%string, 10); A_pid 13; A_ok; A_err 4]
    3 (6 + (2 + (4 + (4 + 0))))
    (startup_trace 3
       ++ [Call (Accept 3) (Err (mkOSError 4));
           Call (Accept 3) (Ok (7, (""%string, 9))); Call Fork (Ok 12);
           Call (Close 7) (Ok tt);
           Call (Accept 3) (Ok (8, (""%string, 10))); Call Fork (Ok 13);
           Call (Close 8) (Ok tt)])
    [A_err 4].
Proof.
  refine (proj1 (@listener_keeps_serving _ scripted _ 3 6 (startup_trace 3)
            _ _ _ _
            (started_at_accept_loop scripted _ _ _ (scripted_started 3 _)) _)).
  eapply listens_interrupted; [reflexivity|reflexivity|].
  eapply listens_served; [reflexivity|reflexivity|discriminate|reflexivity|].
  eapply listens_served; [reflexivity|reflexivity|discriminate|reflexivity|].
  apply listens_done.
Defined.
